(** * Research assistant workflow: a shallow embedding of [agent.py] and
      [research_agent.py]

    The two scripts sequence five calls to hosted agents (gap analysis,
    planning, research, editing, comparison) and keep their results in the
    Streamlit session state.  The agents, the PDF parser and the wall clock
    are external: they are an explicit environment here, and every call into
    them is recorded in an event log so that "stage X was (never) invoked"
    is a statement about that log.

    Python strings are [string]; a value that may be [None] is an [option];
    the dict [step_completed] is a [gmap string bool]; exceptions are carried
    by their message. Pure rendering calls ([st.write], [st.info],
    [st.success], [st.columns], ...) change neither the session state nor the
    control flow and are left out; [st.error] is logged. *)

From Stdlib Require Import String Ascii List ZArith Lia Bool.
From stdpp Require Import base option list strings gmap.

Open Scope string_scope.
Open Scope list_scope.
Open Scope Z_scope.

(** ** Python values *)

(** The line feed of the triple-quoted f-strings. *)
Definition nl : string := String (ascii_of_nat 10) EmptyString.

(** Truthiness of a [str]: only the empty string is falsy. *)
Definition truthy_str (s : string) : bool :=
  match s with
  | EmptyString => false
  | String _ _ => true
  end.

(** Truthiness of a value that is [None] or a [str]. *)
Definition truthy_opt_str (o : option string) : bool :=
  match o with
  | None => false
  | Some s => truthy_str s
  end.

(** [a or b] on an optional string [a] and a string [b]. *)
Definition py_or (a : option string) (b : string) : string :=
  match a with
  | Some s => if truthy_str s then s else b
  | None => b
  end.

(** The outcome of a call that may raise: the value, or the message of the
    exception ([str(e)]). *)
Inductive result (A : Type) : Type :=
| Ok (a : A)
| Raise (msg : string).
Arguments Ok {A} a.
Arguments Raise {A} msg.

(** ** The wall clock and [strftime] *)

Record datetime := {
  year : Z; month : Z; day : Z;
  hour : Z; minute : Z; second : Z
}.

(** What [datetime.now()] can return: a calendar date of the common era with
    a four-digit year and a time of day. *)
Definition wall_clock (t : datetime) : Prop :=
  1000 <= year t <= 9999 /\ 1 <= month t <= 12 /\ 1 <= day t <= 31 /\
  0 <= hour t <= 23 /\ 0 <= minute t <= 59 /\ 0 <= second t <= 59.

(** The character of the last decimal digit of [n]. *)
Definition digit (n : Z) : ascii := ascii_of_nat (Z.to_nat (48 + n mod 10)).

(** [%m], [%d], [%H], [%M], [%S]: two digits, zero padded. *)
Definition two_digits (n : Z) : string :=
  String (digit (n / 10)) (String (digit n) EmptyString).

(** [%Y]: the year with century, four digits. *)
Definition four_digits (n : Z) : string :=
  String (digit (n / 1000)) (String (digit (n / 100))
    (String (digit (n / 10)) (String (digit n) EmptyString))).

(** [t.strftime("%H:%M:%S")] *)
Definition strftime_HMS (t : datetime) : string :=
  two_digits (hour t) +:+ ":" +:+ two_digits (minute t) +:+ ":" +:+
  two_digits (second t).

(** [t.strftime("%Y%m%d_%H%M%S")] *)
Definition strftime_stamp (t : datetime) : string :=
  four_digits (year t) +:+ two_digits (month t) +:+ two_digits (day t) +:+
  "_" +:+ two_digits (hour t) +:+ two_digits (minute t) +:+
  two_digits (second t).

(** ** Data models (the pydantic classes) *)

Record ResearchGaps := {
  gaps : list string;
  improvements : list string;
  areas_to_expand : list string
}.

Record ResearchPlan := {
  topic : string;
  search_queries : list string;
  focus_areas : list string
}.

Record ResearchReport := {
  title : string;
  outline : list string;
  report : string;
  sources : list string;
  word_count : Z
}.

Record Comparison := {
  original_summary : string;
  improvements_made : list string;
  quality_assessment : string;
  depth_increase : string;
  new_insights : list string
}.

(** The [final_output] of an agent whose result the scripts probe with
    [hasattr]: an instance of the declared output type, or some other object,
    of which only its [str()] is ever used. *)
Inductive FinalOutput (A : Type) : Type :=
| Structured (x : A)
| Unstructured (text : string).
Arguments Structured {A} x.
Arguments Unstructured {A} text.

(** The result object of the research agent, which has no output type: its
    [final_output] is text. *)
Record RunResult := { final_output : string }.

(** One entry of [st.session_state.collected_facts]: the dict with the keys
    ["fact"], ["source"] and ["timestamp"]. *)
Record CollectedFact := {
  fact : string;
  source : string;
  timestamp : string
}.

(** ** The session state *)

(** [st.session_state] after the initialisation block of the scripts.
    [collected_facts] is [None] when the key is missing, which
    [save_important_fact] tests for. *)
Record SessionState := {
  conversation_id : string;
  collected_facts : option (list CollectedFact);
  research_done : bool;
  report_result : option (FinalOutput ResearchReport);
  original_content : option string;
  comparison_result : option Comparison;
  current_step : Z;
  step_completed : gmap string bool
}.

Definition set_collected_facts (v : option (list CollectedFact))
    (s : SessionState) : SessionState :=
  {| conversation_id := conversation_id s; collected_facts := v;
     research_done := research_done s; report_result := report_result s;
     original_content := original_content s;
     comparison_result := comparison_result s;
     current_step := current_step s; step_completed := step_completed s |}.

Definition set_research_done (v : bool) (s : SessionState) : SessionState :=
  {| conversation_id := conversation_id s;
     collected_facts := collected_facts s;
     research_done := v; report_result := report_result s;
     original_content := original_content s;
     comparison_result := comparison_result s;
     current_step := current_step s; step_completed := step_completed s |}.

Definition set_report_result (v : option (FinalOutput ResearchReport))
    (s : SessionState) : SessionState :=
  {| conversation_id := conversation_id s;
     collected_facts := collected_facts s;
     research_done := research_done s; report_result := v;
     original_content := original_content s;
     comparison_result := comparison_result s;
     current_step := current_step s; step_completed := step_completed s |}.

Definition set_original_content (v : option string)
    (s : SessionState) : SessionState :=
  {| conversation_id := conversation_id s;
     collected_facts := collected_facts s;
     research_done := research_done s; report_result := report_result s;
     original_content := v;
     comparison_result := comparison_result s;
     current_step := current_step s; step_completed := step_completed s |}.

Definition set_comparison_result (v : option Comparison)
    (s : SessionState) : SessionState :=
  {| conversation_id := conversation_id s;
     collected_facts := collected_facts s;
     research_done := research_done s; report_result := report_result s;
     original_content := original_content s;
     comparison_result := v;
     current_step := current_step s; step_completed := step_completed s |}.

(** [st.session_state.step_completed[k] = True] *)
Definition mark_step (k : string) (s : SessionState) : SessionState :=
  {| conversation_id := conversation_id s;
     collected_facts := collected_facts s;
     research_done := research_done s; report_result := report_result s;
     original_content := original_content s;
     comparison_result := comparison_result s;
     current_step := current_step s;
     step_completed := <[k := true]> (step_completed s) |}.

(** The dict literal of the initialisation block. *)
Definition initial_step_completed : gmap string bool :=
  <["upload" := false]> (<["planning" := false]> (<["research" := false]>
    (<["report" := false]> (<["comparison" := false]> ∅)))).

(** A session right after the initialisation block, with the identifier the
    script drew ([uuid.uuid4().hex[:16]]). *)
Definition fresh_session (cid : string) : SessionState :=
  {| conversation_id := cid; collected_facts := Some [];
     research_done := false; report_result := None;
     original_content := None; comparison_result := None;
     current_step := 0; step_completed := initial_step_completed |}.

(** The read-only view of the Fact Sink, in insertion order. *)
Definition snapshot (s : SessionState) : list CollectedFact :=
  default [] (collected_facts s).

(** ** The Fact Sink tool *)

(** [save_important_fact(fact, source=None)], called at wall-clock time
    [now]: the new session state and the acknowledgement string. *)
Definition save_important_fact (fact0 : string) (source0 : option string)
    (now : datetime) (s : SessionState) : SessionState * string :=
  let s1 :=
    match collected_facts s with
    | None => set_collected_facts (Some []) s
    | Some _ => s
    end in
  let entry :=
    {| fact := fact0;
       source := py_or source0 "Not specified";
       timestamp := strftime_HMS now |} in
  (set_collected_facts (Some (snapshot s1 ++ [entry])) s1,
   "Fact saved: " +:+ fact0).

(** ** The Document Loader *)

(** A page of a PDF as [PyPDF2] sees it: what [page.extract_text()] does. *)
Definition Page := result string.

(** An uploaded PDF: what [PyPDF2.PdfReader(pdf_file)] does, and the pages
    it gives. *)
Definition PdfFile := result (list Page).

(** The loop [for page in pdf_reader.pages: text += page.extract_text()]. *)
Fixpoint extract_pages (text : string) (pages : list Page) : result string :=
  match pages with
  | [] => Ok text
  | Ok t :: rest => extract_pages (text +:+ t) rest
  | Raise e :: _ => Raise e
  end.

(** An uploaded text file: its bytes decoded as UTF-8, or the decoding
    error. *)
Definition TextFile := result string.

(** What the browser hands over for an upload: the declared media type and
    the two ways the scripts read the content. *)
Record UploadedFile := {
  name : string;
  type : string;
  as_pdf : PdfFile;
  as_text : TextFile
}.

(** ** The external agents *)

Inductive AgentId :=
| gap_analysis_agent
| planning_agent
| research_agent
| editor_agent
| comparison_agent.

Definition agent_eqb (a b : AgentId) : bool :=
  match a, b with
  | gap_analysis_agent, gap_analysis_agent
  | planning_agent, planning_agent
  | research_agent, research_agent
  | editor_agent, editor_agent
  | comparison_agent, comparison_agent => true
  | _, _ => false
  end.

(** One call of the tool [save_important_fact] whose body ran on the
    session state of the script while the research agent was running, with
    the wall-clock time at which it happened. *)
Record FactCall := {
  call_fact : string;
  call_source : option string;
  call_now : datetime
}.

(** The world outside the script during one run: what [Runner.run] does for
    each agent on a given prompt (a run invokes each agent at most once, so
    a function of the prompt loses nothing; two runs take two environments).
    Only [research_agent] carries the tool
    [save_important_fact], so only its outcome comes with tool calls; they
    happen before it returns or raises.  In which thread the SDK runs the
    body of a tool is its own business, and [st.session_state] is resolved
    for the calling thread: the list holds the calls that reached the session
    state of the script, and a call that ran elsewhere is not in it.  [Runner.run] yields a result object;
    the scripts test the one of the research agent for truthiness, so that
    one may be [None].  [str_gaps] is pydantic's [__str__] on a
    [ResearchGaps]. *)
Record Env := {
  run_gap_analysis : string -> result (FinalOutput ResearchGaps);
  run_planning : string -> result ResearchPlan;
  run_research_agent : string -> list FactCall * result (option RunResult);
  run_editor : string -> result (FinalOutput ResearchReport);
  run_comparison : string -> result Comparison;
  str_gaps : ResearchGaps -> string
}.

(** ** Events *)

(** The arguments of [st.download_button] that make the artifact. *)
Record DownloadButton := {
  data : string;
  file_name : string;
  mime : string
}.

Inductive Event :=
| Trace (workflow_name group_id : string)
| Invoked (a : AgentId) (prompt : string) (before : SessionState)
| StError (msg : string)
| StDownload (b : DownloadButton).

(** The prompts with which agent [a] was invoked, in order. *)
Fixpoint invocations (a : AgentId) (log : list Event) : list string :=
  match log with
  | [] => []
  | Invoked b p _ :: rest =>
      if agent_eqb a b then p :: invocations a rest else invocations a rest
  | _ :: rest => invocations a rest
  end.

(** The session states in which agent [a] was invoked, in order. *)
Fixpoint states_at (a : AgentId) (log : list Event) : list SessionState :=
  match log with
  | [] => []
  | Invoked b _ s :: rest =>
      if agent_eqb a b then s :: states_at a rest else states_at a rest
  | _ :: rest => states_at a rest
  end.

(** The session states at every agent invocation, in order. *)
Fixpoint states_at_any (log : list Event) : list SessionState :=
  match log with
  | [] => []
  | Invoked _ _ s :: rest => s :: states_at_any rest
  | _ :: rest => states_at_any rest
  end.

(** The messages shown with [st.error], in order. *)
Fixpoint errors (log : list Event) : list string :=
  match log with
  | [] => []
  | StError m :: rest => m :: errors rest
  | _ :: rest => errors rest
  end.

(** ** A monad for the script: session state, event log, exceptions and the
    [return] statement *)

Record World := {
  session : SessionState;
  events : list Event
}.

Inductive Outcome (A : Type) : Type :=
| Val (a : A)
| Raised (msg : string)
| Returned.
Arguments Val {A} a.
Arguments Raised {A} msg.
Arguments Returned {A}.

Definition M (A : Type) : Type := World -> Outcome A * World.

Definition ret {A} (a : A) : M A := fun w => (Val a, w).

Definition bind {A B} (m : M A) (k : A -> M B) : M B :=
  fun w =>
    match m w with
    | (Val a, w') => k a w'
    | (Raised e, w') => (Raised e, w')
    | (Returned, w') => (Returned, w')
    end.

Notation "'let!' x ':=' m 'in' k" := (bind m (fun x => k))
  (at level 10, x name, m at level 100, k at level 200,
   only parsing).
Notation "m '>>' k" := (bind m (fun _ => k))
  (at level 100, k at level 200, right associativity, only parsing).

(** The statement [return]. *)
Definition return_ {A} : M A := fun w => (Returned, w).

(** [try: m  except Exception as e: h e] *)
Definition try_except {A} (m : M A) (h : string -> M A) : M A :=
  fun w =>
    match m w with
    | (Raised e, w') => h e w'
    | r => r
    end.

(** An assignment to [st.session_state]. *)
Definition update (f : SessionState -> SessionState) : M unit :=
  fun w => (Val tt, {| session := f (session w); events := events w |}).

Definition emit (e : Event) : M unit :=
  fun w => (Val tt, {| session := session w; events := events w ++ [e] |}).

Definition st_error (msg : string) : M unit := emit (StError msg).

(** Lifting a call that may raise. *)
Definition lift {A} (r : result A) : M A :=
  fun w =>
    match r with
    | Ok a => (Val a, w)
    | Raise e => (Raised e, w)
    end.

(** The tool calls of the research agent, applied in order. *)
Fixpoint apply_calls (calls : list FactCall) (s : SessionState)
    : SessionState :=
  match calls with
  | [] => s
  | c :: rest =>
      apply_calls rest
        (fst (save_important_fact (call_fact c) (call_source c) (call_now c) s))
  end.

(** [await Runner.run(agent, prompt)] for an agent without tools. *)
Definition Runner_run {A} (a : AgentId) (prompt : string) (r : result A)
    : M A :=
  fun w =>
    lift r {| session := session w;
              events := events w ++ [Invoked a prompt (session w)] |}.

(** [await Runner.run(research_agent, prompt)]: the agent may call
    [save_important_fact] while it runs; the calls that reach the session
    state of the script are applied to it, in order. *)
Definition Runner_run_research (env : Env) (prompt : string)
    : M (option RunResult) :=
  fun w =>
    let (calls, r) := run_research_agent env prompt in
    lift r {| session := apply_calls calls (session w);
              events := events w ++
                          [Invoked research_agent prompt (session w)] |}.

(** A call of a function of the script whose body is [body]: a [return]
    statement ends the call normally, an exception leaves it. *)
Definition called (body : M unit) : M unit :=
  fun w =>
    match body w with
    | (Returned, w') => (Val tt, w')
    | r => r
    end.

(** Running a piece of the script from session state [s] with an empty log:
    how it ends, the session state it leaves and the events it produced. *)
Definition exec (m : M unit) (s : SessionState)
    : result unit * SessionState * list Event :=
  match m {| session := s; events := [] |} with
  | (Val _, w) => (Ok tt, session w, events w)
  | (Returned, w) => (Ok tt, session w, events w)
  | (Raised e, w) => (Raise e, session w, events w)
  end.

(** The four assignments at the top of [run_research], the same in both
    scripts. *)
Definition reset_run (s : SessionState) : SessionState :=
  set_comparison_result None
    (set_report_result None
      (set_research_done false
        (set_collected_facts (Some []) s))).

(** Truthiness of [st.session_state.report_result]: [None] is falsy, a
    pydantic object is truthy, a string is truthy when it is not empty. *)
Definition truthy_report (o : option (FinalOutput ResearchReport)) : bool :=
  match o with
  | None => false
  | Some (Structured _) => true
  | Some (Unstructured t) => truthy_str t
  end.

(** ** [agent.py] *)

Module Agent.

(** [extract_pdf_text(pdf_file)]: any exception is shown and turned into
    [None]. *)
Definition extract_pdf_text (pdf_file : PdfFile) : M (option string) :=
  try_except
    (let! pages := lift pdf_file in
     let! text := lift (extract_pages "" pages) in
     ret (Some text))
    (fun e => st_error ("Error extracting PDF: " +:+ e) >> ret None).

(** [extract_text_file(text_file)] *)
Definition extract_text_file (text_file : TextFile) : M (option string) :=
  try_except
    (let! text := lift text_file in ret (Some text))
    (fun e => st_error ("Error reading text file: " +:+ e) >> ret None).

Definition gap_prompt (original_content query : string) : string :=
  "Original Research Content:" +:+ nl +:+ original_content +:+ nl +:+
  "Research Query: " +:+ query +:+ nl +:+
  "Analyze this research for gaps and improvements needed.".

(** [gaps_data]: the output when it has the attribute [gaps]. *)
Definition gaps_data (out : FinalOutput ResearchGaps)
    : option ResearchGaps :=
  match out with
  | Structured g => Some g
  | Unstructured _ => None
  end.

(** [str(gap_result.final_output)] *)
Definition str_output (env : Env) (out : FinalOutput ResearchGaps)
    : string :=
  match out with
  | Structured g => str_gaps env g
  | Unstructured t => t
  end.

(** [plan_prompt]. The variables [gap_result] and [gaps_data] are bound
    only in the branch [if original_content:] of step 1; [gap] is their
    value there and [None] otherwise, so that [gap] is [Some] exactly when
    [original_content] is truthy, which is what the script tests here. *)
Definition plan_prompt (env : Env) (query : string)
    (gap : option (FinalOutput ResearchGaps)) : string :=
  match gap with
  | Some out =>
      "Research Query: " +:+ query +:+ nl +:+
      "Gaps to fill: " +:+
      (match gaps_data out with
       | Some _ => str_output env out
       | None => "General research needed"
       end) +:+ nl +:+
      "Create a research plan with targeted search queries and focus areas."
  | None => "Create a comprehensive research plan for: " +:+ query
  end.

Definition research_prompt (research_plan : ResearchPlan) : string :=
  "Research queries to investigate:" +:+ nl +:+
  String.concat ", " (search_queries research_plan) +:+ nl +:+
  "Focus areas:" +:+ nl +:+
  String.concat ", " (focus_areas research_plan) +:+ nl +:+
  "Research these thoroughly and compile findings.".

(** The expression
    [research_result.final_output if research_result else
     'Research completed']. *)
Definition findings (research_result : option RunResult) : string :=
  match research_result with
  | Some r => final_output r
  | None => "Research completed"
  end.

Definition report_prompt (query : string)
    (research_result : option RunResult) : string :=
  "Research Query: " +:+ query +:+ nl +:+
  "Research Findings:" +:+ nl +:+
  findings research_result +:+ nl +:+
  "Write a comprehensive, detailed research report (5-10 pages, 1500+ words)."
  +:+ nl +:+
  "Use clear sections, headings, and professional formatting.".

(** [out.report if hasattr(out, 'report') else str(out)] *)
Definition report_text (out : FinalOutput ResearchReport) : string :=
  match out with
  | Structured r => report r
  | Unstructured t => t
  end.

Definition comparison_prompt (original_content : string)
    (out : FinalOutput ResearchReport) : string :=
  "Original Research:" +:+ nl +:+ original_content +:+ nl +:+
  "New Research Generated:" +:+ nl +:+ report_text out +:+ nl +:+
  "Provide a detailed comparison of both research pieces.".

(** The body of [run_research(query, original_content)]. *)
Definition run_research_body (env : Env) (query : string)
    (original_content : option string) : M unit :=
  update (set_collected_facts (Some [])) >>
  update (set_research_done false) >>
  update (set_report_result None) >>
  update (set_comparison_result None) >>
  let! s0 := (fun w => (Val (session w), w)) in
  emit (Trace "Enhanced Research" (conversation_id s0)) >>
  (* STEP 1: analyze existing research (if provided) *)
  let! gap :=
    (if truthy_opt_str original_content then
       try_except
         (let! out :=
            Runner_run gap_analysis_agent
              (gap_prompt (default "" original_content) query)
              (run_gap_analysis env
                 (gap_prompt (default "" original_content) query)) in
          ret (Some out))
         (fun e => st_error ("Error in gap analysis: " +:+ e) >> return_)
     else ret None) in
  (* STEP 2: plan research *)
  let! research_plan :=
    try_except
      (let! plan :=
         Runner_run planning_agent (plan_prompt env query gap)
           (run_planning env (plan_prompt env query gap)) in
       update (mark_step "planning") >>
       ret plan)
      (fun e => st_error ("Error in planning: " +:+ e) >> return_) in
  (* STEP 3: conduct research *)
  let! research_result :=
    try_except
      (let! r := Runner_run_research env (research_prompt research_plan) in
       update (mark_step "research") >>
       ret r)
      (fun e => st_error ("Error in research: " +:+ e) >> return_) in
  (* STEP 4: generate comprehensive report *)
  let! report_out :=
    try_except
      (let! out :=
         Runner_run editor_agent (report_prompt query research_result)
           (run_editor env (report_prompt query research_result)) in
       update (set_report_result (Some out)) >>
       update (mark_step "report") >>
       ret out)
      (fun e => st_error ("Error generating report: " +:+ e) >> return_) in
  (* STEP 5: create comparison (if original content provided) *)
  (if truthy_opt_str original_content then
     try_except
       (let! c :=
          Runner_run comparison_agent
            (comparison_prompt (default "" original_content) report_out)
            (run_comparison env
               (comparison_prompt (default "" original_content)
                  report_out)) in
        update (set_comparison_result (Some c)) >>
        update (mark_step "comparison"))
       (fun e => st_error ("Error in comparison: " +:+ e))
   else ret tt) >>
  update (set_research_done true).

(** One run: the outcome of the call, the session state it leaves and the
    events of the run. *)
Definition run_research (env : Env) (query : string)
    (original_content : option string) (s : SessionState)
    : result unit * SessionState * list Event :=
  exec (called (run_research_body env query original_content)) s.

(** The block [if start_button:], with the file of the uploader (if
    any). *)
Definition start_research (env : Env) (research_query : string)
    (uploaded_file : option UploadedFile) : M unit :=
  let! original_content :=
    match uploaded_file with
    | Some f =>
        try_except
          (if String.eqb (type f) "application/pdf"
           then extract_pdf_text (as_pdf f)
           else extract_text_file (as_text f))
          (fun e => st_error ("Error reading file: " +:+ e) >> ret None)
    | None => ret None
    end in
  update (set_original_content original_content) >>
  try_except
    (called (run_research_body env research_query original_content))
    (fun e =>
       st_error ("An error occurred during research: " +:+ e) >>
       update (set_research_done true)).

(** The download button of the tab "Final Report", drawn at wall-clock
    time [now] when the results are displayed. *)
Definition download_button (now : datetime) (s : SessionState)
    : option DownloadButton :=
  if research_done s && truthy_report (report_result s) then
    match report_result s with
    | Some (Structured r) =>
        Some {| data := report r;
                file_name :=
                  "research_report_" +:+ strftime_stamp now +:+ ".md";
                mime := "text/markdown" |}
    | _ => None
    end
  else None.

End Agent.

(** ** [research_agent.py] *)

Module ResearchAgent.

(** [extract_pdf_text(pdf_file)]: exceptions are left to the caller. *)
Definition extract_pdf_text (pdf_file : PdfFile) : M string :=
  let! pages := lift pdf_file in
  lift (extract_pages "" pages).

(** [extract_text_file(text_file)] *)
Definition extract_text_file (text_file : TextFile) : M string :=
  lift text_file.

Definition gap_prompt (original_content query : string) : string :=
  "Original Research Content:" +:+ nl +:+ original_content +:+ nl +:+ nl +:+
  "Research Query: " +:+ query +:+ nl +:+ nl +:+
  "Analyze this research for gaps and improvements needed.".

Definition plan_prompt (env : Env) (query : string)
    (gap : option (FinalOutput ResearchGaps)) : string :=
  match gap with
  | Some out =>
      "Research Query: " +:+ query +:+ nl +:+ nl +:+
      "Gaps to fill: " +:+
      (match Agent.gaps_data out with
       | Some _ => Agent.str_output env out
       | None => "General research needed"
       end) +:+ nl +:+ nl +:+
      "Create a research plan with targeted search queries and focus areas."
  | None => "Create a comprehensive research plan for: " +:+ query
  end.

Definition research_prompt (research_plan : ResearchPlan) : string :=
  "Research queries to investigate:" +:+ nl +:+
  String.concat ", " (search_queries research_plan) +:+ nl +:+ nl +:+
  "Focus areas:" +:+ nl +:+
  String.concat ", " (focus_areas research_plan) +:+ nl +:+ nl +:+
  "Research these thoroughly and compile findings.".

Definition report_prompt (query : string)
    (research_result : option RunResult) : string :=
  "Research Query: " +:+ query +:+ nl +:+ nl +:+
  "Research Findings:" +:+ nl +:+
  Agent.findings research_result +:+ nl +:+ nl +:+
  "Write a comprehensive, detailed research report (5-10 pages, 1500+ words)."
  +:+ nl +:+
  "Use clear sections, headings, and professional formatting.".

Definition comparison_prompt (original_content : string)
    (out : FinalOutput ResearchReport) : string :=
  "Original Research:" +:+ nl +:+ original_content +:+ nl +:+ nl +:+
  "New Research Generated:" +:+ nl +:+ Agent.report_text out +:+ nl +:+ nl +:+
  "Provide a detailed comparison of both research pieces.".

(** The part of the tab "Final Report" that draws the download button, at
    wall-clock time [now]. *)
Definition display_report (now : datetime) : M unit :=
  fun w =>
    if truthy_report (report_result (session w)) then
      match report_result (session w) with
      | Some (Structured r) =>
          emit (StDownload
                  {| data := report r;
                     file_name :=
                       "research_report_" +:+ strftime_stamp now +:+ ".md";
                     mime := "text/markdown" |}) w
      | _ => (Val tt, w)
      end
    else (Val tt, w).

(** The body of [run_research(query, original_content)]; [now] is the
    wall-clock time at which the report tab is drawn. *)
Definition run_research_body (env : Env) (now : datetime) (query : string)
    (original_content : option string) : M unit :=
  update (set_collected_facts (Some [])) >>
  update (set_research_done false) >>
  update (set_report_result None) >>
  update (set_comparison_result None) >>
  let! s0 := (fun w => (Val (session w), w)) in
  emit (Trace "Enhanced Research" (conversation_id s0)) >>
  (* STEP 1 *)
  let! gap :=
    (if truthy_opt_str original_content then
       let! out :=
         Runner_run gap_analysis_agent
           (gap_prompt (default "" original_content) query)
           (run_gap_analysis env
              (gap_prompt (default "" original_content) query)) in
       ret (Some out)
     else ret None) in
  (* STEP 2 *)
  let! research_plan :=
    Runner_run planning_agent (plan_prompt env query gap)
      (run_planning env (plan_prompt env query gap)) in
  (* STEP 3 *)
  let! research_result :=
    Runner_run_research env (research_prompt research_plan) in
  (* STEP 4 *)
  let! report_out :=
    Runner_run editor_agent (report_prompt query research_result)
      (run_editor env (report_prompt query research_result)) in
  update (set_report_result (Some report_out)) >>
  (* STEP 5 *)
  (if truthy_opt_str original_content then
     let! c :=
       Runner_run comparison_agent
         (comparison_prompt (default "" original_content) report_out)
         (run_comparison env
            (comparison_prompt (default "" original_content) report_out)) in
     update (set_comparison_result (Some c))
   else ret tt) >>
  (* the tabs *)
  display_report now >>
  update (set_research_done true).

Definition run_research (env : Env) (now : datetime) (query : string)
    (original_content : option string) (s : SessionState)
    : result unit * SessionState * list Event :=
  exec (called (run_research_body env now query original_content)) s.

(** The block [if start_button:]. *)
Definition start_research (env : Env) (now : datetime)
    (research_query : string) (uploaded_file : option UploadedFile)
    : M unit :=
  let! original_content :=
    match uploaded_file with
    | Some f =>
        try_except
          (let! text :=
             (if String.eqb (type f) "application/pdf"
              then extract_pdf_text (as_pdf f)
              else extract_text_file (as_text f)) in
           ret (Some text))
          (fun e => st_error ("Error reading file: " +:+ e) >> ret None)
    | None => ret None
    end in
  try_except
    (called (run_research_body env now research_query original_content))
    (fun e =>
       st_error ("An error occurred: " +:+ e) >>
       update (set_research_done true)).

End ResearchAgent.

(** The three components of what [exec] gives. *)
Definition outcome_of (r : result unit * SessionState * list Event)
    : result unit := fst (fst r).
Definition state_of (r : result unit * SessionState * list Event)
    : SessionState := snd (fst r).
Definition log_of (r : result unit * SessionState * list Event)
    : list Event := snd r.

(** ** Reading a file name back *)

(** The value of a decimal digit character. *)
Definition digit_value (c : ascii) : option Z :=
  let n := Z.of_nat (nat_of_ascii c) in
  if (48 <=? n) && (n <=? 57) then Some (n - 48) else None.

(** Reads [n] decimal digits off the front of [s], continuing the number
    [acc]; gives the number and the rest of [s]. *)
Fixpoint parse_digits (n : nat) (s : string) (acc : Z) : option (Z * string) :=
  match n with
  | O => Some (acc, s)
  | S n' =>
      match s with
      | String c rest =>
          match digit_value c with
          | Some d => parse_digits n' rest (10 * acc + d)
          | None => None
          end
      | EmptyString => None
      end
  end.

(** Removes the prefix [pre] from [s], if [s] starts with it. *)
Fixpoint strip_prefix (pre s : string) : option string :=
  match pre, s with
  | EmptyString, _ => Some s
  | String a pre', String b s' =>
      if Ascii.eqb a b then strip_prefix pre' s' else None
  | String _ _, EmptyString => None
  end.

(** Reads a name of the form [research_report_<YYYYMMDD_HHMMSS>.<ext>]:
    the time the fourteen digits denote, and the extension. *)
Definition parse_report_name (f : string) : option (datetime * string) :=
  match strip_prefix "research_report_" f with
  | None => None
  | Some s0 =>
  match parse_digits 4 s0 0 with
  | None => None
  | Some (y, s1) =>
  match parse_digits 2 s1 0 with
  | None => None
  | Some (mo, s2) =>
  match parse_digits 2 s2 0 with
  | Some (d, String "_" s3) =>
  match parse_digits 2 s3 0 with
  | None => None
  | Some (h, s4) =>
  match parse_digits 2 s4 0 with
  | None => None
  | Some (mi, s5) =>
  match parse_digits 2 s5 0 with
  | Some (se, String "." ext) =>
      if truthy_str ext then
        Some ({| year := y; month := mo; day := d;
                 hour := h; minute := mi; second := se |}, ext)
      else None
  | _ => None
  end end end
  | _ => None
  end end end end.

(** [part] occurs in [whole]. *)
Definition embeds (part whole : string) : Prop :=
  exists pre post, whole = pre +:+ part +:+ post.

(** ** Sample inputs *)

Definition sample_gaps : ResearchGaps :=
  {| gaps := ["no data after 2020"]; improvements := ["add benchmarks"];
     areas_to_expand := ["hardware"] |}.

Definition sample_plan : ResearchPlan :=
  {| topic := "quantum computing";
     search_queries := ["qubits 2025"; "error correction"; "vendors"];
     focus_areas := ["hardware"; "algorithms"] |}.

Definition empty_plan : ResearchPlan :=
  {| topic := "quantum computing"; search_queries := [];
     focus_areas := ["hardware"] |}.

Definition sample_report : ResearchReport :=
  {| title := "Title"; outline := ["Intro"];
     report := "# Title" +:+ nl +:+ nl +:+ "Body";
     sources := ["https://example.org"]; word_count := 2 |}.

Definition sample_comparison : Comparison :=
  {| original_summary := "short"; improvements_made := ["depth"];
     quality_assessment := "better"; depth_increase := "high";
     new_insights := ["vendors"] |}.

Definition sample_time : datetime :=
  {| year := 2025; month := 3; day := 9;
     hour := 14; minute := 5; second := 59 |}.

Definition sample_calls : list FactCall :=
  [ {| call_fact := "1000 qubits"; call_source := Some "https://example.org";
       call_now := sample_time |};
    {| call_fact := "surface codes"; call_source := None;
       call_now := sample_time |} ].

(** Every agent succeeds; the research agent saves two facts. *)
Definition env_ok : Env :=
  {| run_gap_analysis := fun _ => Ok (Structured sample_gaps);
     run_planning := fun _ => Ok sample_plan;
     run_research_agent :=
       fun _ => (sample_calls, Ok (Some {| final_output := "findings" |}));
     run_editor := fun _ => Ok (Structured sample_report);
     run_comparison := fun _ => Ok sample_comparison;
     str_gaps := fun _ => "gaps=[...]" |}.

(** The research agent saves a fact and then raises. *)
Definition env_research_fails : Env :=
  {| run_gap_analysis := run_gap_analysis env_ok;
     run_planning := run_planning env_ok;
     run_research_agent :=
       fun _ => ([ {| call_fact := "1000 qubits"; call_source := None;
                      call_now := sample_time |} ], Raise "rate limit");
     run_editor := run_editor env_ok;
     run_comparison := run_comparison env_ok;
     str_gaps := str_gaps env_ok |}.

(** The comparison agent raises. *)
Definition env_comparison_fails : Env :=
  {| run_gap_analysis := run_gap_analysis env_ok;
     run_planning := run_planning env_ok;
     run_research_agent := run_research_agent env_ok;
     run_editor := run_editor env_ok;
     run_comparison := fun _ => Raise "timeout";
     str_gaps := str_gaps env_ok |}.

(** The planning agent raises. *)
Definition env_planning_fails : Env :=
  {| run_gap_analysis := run_gap_analysis env_ok;
     run_planning := fun _ => Raise "bad request";
     run_research_agent := run_research_agent env_ok;
     run_editor := run_editor env_ok;
     run_comparison := run_comparison env_ok;
     str_gaps := str_gaps env_ok |}.

(** The planning agent returns a plan without search queries. *)
Definition env_empty_plan : Env :=
  {| run_gap_analysis := run_gap_analysis env_ok;
     run_planning := fun _ => Ok empty_plan;
     run_research_agent := run_research_agent env_ok;
     run_editor := run_editor env_ok;
     run_comparison := run_comparison env_ok;
     str_gaps := str_gaps env_ok |}.

(** ** The rest of the scripts *)

(** The agents invoked in a run, in order. *)
Fixpoint agents_invoked (log : list Event) : list AgentId :=
  match log with
  | [] => []
  | Invoked a _ _ :: rest => a :: agents_invoked rest
  | _ :: rest => agents_invoked rest
  end.

(** The traces opened, in order: workflow name and group identifier. *)
Fixpoint traces (log : list Event) : list (string * string) :=
  match log with
  | [] => []
  | Trace n g :: rest => (n, g) :: traces rest
  | _ :: rest => traces rest
  end.

(** The download buttons drawn, in order. *)
Fixpoint downloads (log : list Event) : list DownloadButton :=
  match log with
  | [] => []
  | StDownload b :: rest => b :: downloads rest
  | _ :: rest => downloads rest
  end.

(** The dict that one call of the tool appends. *)
Definition entry_of_call (c : FactCall) : CollectedFact :=
  {| fact := call_fact c;
     source := py_or (call_source c) "Not specified";
     timestamp := strftime_HMS (call_now c) |}.

(** What reading an upload comes to in the block [if start_button:] of both
    scripts: the PDF path for the declared type [application/pdf], the text
    path for any other type. *)
Definition loaded_text (f : UploadedFile) : result string :=
  if String.eqb (type f) "application/pdf" then
    match as_pdf f with
    | Ok pages => extract_pages "" pages
    | Raise e => Raise e
    end
  else as_text f.

(** *** The initialisation of [st.session_state] *)

(** The values the scripts keep in [st.session_state]. *)
Inductive Value :=
| VNone
| VStr (s : string)
| VBool (b : bool)
| VInt (z : Z)
| VFacts (l : list CollectedFact)
| VReport (r : FinalOutput ResearchReport)
| VComparison (c : Comparison)
| VFlags (m : gmap string bool).

(** [if k not in st.session_state: st.session_state[k] = v] *)
Definition init_key (k : string) (v : Value) (d : gmap string Value)
    : gmap string Value :=
  match d !! k with
  | None => <[k := v]> d
  | Some _ => d
  end.

(** The block "SESSION STATE INITIALIZATION", the same in both scripts, run
    on the dict [d] that Streamlit kept from the previous pass of the script
    (empty in a new session).  [hex] is what [uuid.uuid4().hex] gives. *)
Definition init_session_state (hex : string) (d : gmap string Value)
    : gmap string Value :=
  init_key "step_completed" (VFlags initial_step_completed)
    (init_key "current_step" (VInt 0)
      (init_key "comparison_result" VNone
        (init_key "original_content" VNone
          (init_key "report_result" VNone
            (init_key "research_done" (VBool false)
              (init_key "collected_facts" (VFacts [])
                (init_key "conversation_id"
                   (VStr (String.substring 0 16 hex)) d))))))).

(** The keys of the initialisation block. *)
Definition session_keys : list string :=
  ["conversation_id"; "collected_facts"; "research_done"; "report_result";
   "original_content"; "comparison_result"; "current_step";
   "step_completed"].

(** Reading the dict as the record [SessionState]: every key but
    [collected_facts] must be there, with a value of the kind the scripts
    store under it. *)
Definition session_of (d : gmap string Value) : option SessionState :=
  match d !! "conversation_id", d !! "research_done",
        d !! "current_step", d !! "step_completed" with
  | Some (VStr cid), Some (VBool rd), Some (VInt cs), Some (VFlags fl) =>
      match
        match d !! "collected_facts" with
        | None => Some None
        | Some (VFacts l) => Some (Some l)
        | Some _ => None
        end,
        match d !! "report_result" with
        | Some VNone => Some None
        | Some (VReport r) => Some (Some r)
        | _ => None
        end,
        match d !! "original_content" with
        | Some VNone => Some None
        | Some (VStr t) => Some (Some t)
        | _ => None
        end,
        match d !! "comparison_result" with
        | Some VNone => Some None
        | Some (VComparison c) => Some (Some c)
        | _ => None
        end
      with
      | Some facts, Some rep, Some oc, Some cmp =>
          Some {| conversation_id := cid; collected_facts := facts;
                  research_done := rd; report_result := rep;
                  original_content := oc; comparison_result := cmp;
                  current_step := cs; step_completed := fl |}
      | _, _, _, _ => None
      end
  | _, _, _, _ => None
  end.

(** More sample inputs. *)

Definition sample_pdf : UploadedFile :=
  {| name := "old.pdf"; type := "application/pdf";
     as_pdf := Ok [Ok "page one. "; Raise "bad stream"; Ok "page three."];
     as_text := Raise "invalid start byte" |}.

Definition sample_txt : UploadedFile :=
  {| name := "old.txt"; type := "text/plain";
     as_pdf := Raise "not a PDF";
     as_text := Ok "An older survey." |}.

(** The editor agent raises. *)
Definition env_editor_fails : Env :=
  {| run_gap_analysis := run_gap_analysis env_ok;
     run_planning := run_planning env_ok;
     run_research_agent := run_research_agent env_ok;
     run_editor := fun _ => Raise "context too long";
     run_comparison := run_comparison env_ok;
     str_gaps := str_gaps env_ok |}.

(** The gap analysis agent raises. *)
Definition env_gap_fails : Env :=
  {| run_gap_analysis := fun _ => Raise "overloaded";
     run_planning := run_planning env_ok;
     run_research_agent := run_research_agent env_ok;
     run_editor := run_editor env_ok;
     run_comparison := run_comparison env_ok;
     str_gaps := str_gaps env_ok |}.

(** Whether [part] occurs in [whole], by trying every position. *)
Fixpoint occurs_in (part whole : string) : bool :=
  match strip_prefix part whole with
  | Some _ => true
  | None =>
      match whole with
      | EmptyString => false
      | String _ rest => occurs_in part rest
      end
  end.

(** The research agent returns a result whose [final_output] is the empty
    text. *)
Definition env_empty_output : Env :=
  {| run_gap_analysis := run_gap_analysis env_ok;
     run_planning := run_planning env_ok;
     run_research_agent :=
       fun _ => ([], Ok (Some {| final_output := "" |}));
     run_editor := run_editor env_ok;
     run_comparison := run_comparison env_ok;
     str_gaps := str_gaps env_ok |}.

(** [Runner.run] hands back no result object for the research agent. *)
Definition env_no_result : Env :=
  {| run_gap_analysis := run_gap_analysis env_ok;
     run_planning := run_planning env_ok;
     run_research_agent := fun _ => ([], Ok None);
     run_editor := run_editor env_ok;
     run_comparison := run_comparison env_ok;
     str_gaps := str_gaps env_ok |}.

(** * Properties *)

(** ** Proof automation for the runs *)

(** Case analysis on what the next agent call of the run does. *)
Ltac env_case :=
  match goal with
  | |- context [run_gap_analysis ?e ?p] =>
      let E := fresh "Egap" in
      destruct (run_gap_analysis e p) as [?out|?msg] eqn:E
  | |- context [run_planning ?e ?p] =>
      let E := fresh "Eplan" in
      destruct (run_planning e p) as [?plan|?msg] eqn:E
  | |- context [run_research_agent ?e ?p] =>
      let E := fresh "Eres" in
      destruct (run_research_agent e p) as [?calls [?res|?msg]] eqn:E
  | |- context [run_editor ?e ?p] =>
      let E := fresh "Eedit" in
      destruct (run_editor e p) as [?rep|?msg] eqn:E
  | |- context [run_comparison ?e ?p] =>
      let E := fresh "Ecmp" in
      destruct (run_comparison e p) as [?cmp|?msg] eqn:E
  | |- context [match ?x with Structured _ => _ | Unstructured _ => _ end] =>
      is_var x; destruct x as [?r|?text]
  | |- context [truthy_str ?t] => is_var t; destruct t
  end.

Ltac unfold_run :=
  unfold Agent.run_research, ResearchAgent.run_research,
    Agent.run_research_body, ResearchAgent.run_research_body,
    ResearchAgent.display_report,
    exec, called, log_of, state_of, outcome_of,
    bind, try_except, update, emit, ret, return_, st_error,
    Runner_run, Runner_run_research, lift.

(** All the ways a run can go, each with its log and final state computed. *)
Ltac run_cases oc :=
  unfold_run; destruct (truthy_opt_str oc) eqn:?; simpl;
  repeat (env_case; simpl).

(** ** The Fact Sink tool leaves the rest of the session alone *)

Lemma save_important_fact_snapshot f src now s :
  snapshot (fst (save_important_fact f src now s)) =
  snapshot s ++
    [{| fact := f; source := py_or src "Not specified";
        timestamp := strftime_HMS now |}].
Proof.
  unfold save_important_fact, snapshot.
  destruct (collected_facts s) as [l|] eqn:E; simpl; rewrite ?E; reflexivity.
Qed.

Lemma save_important_fact_frame f src now s :
  let s' := fst (save_important_fact f src now s) in
  conversation_id s' = conversation_id s /\
  research_done s' = research_done s /\
  report_result s' = report_result s /\
  original_content s' = original_content s /\
  comparison_result s' = comparison_result s /\
  current_step s' = current_step s /\
  step_completed s' = step_completed s.
Proof.
  unfold save_important_fact.
  destruct (collected_facts s); simpl; repeat split; reflexivity.
Qed.

Lemma apply_calls_frame calls : forall s,
  conversation_id (apply_calls calls s) = conversation_id s /\
  research_done (apply_calls calls s) = research_done s /\
  report_result (apply_calls calls s) = report_result s /\
  original_content (apply_calls calls s) = original_content s /\
  comparison_result (apply_calls calls s) = comparison_result s /\
  current_step (apply_calls calls s) = current_step s /\
  step_completed (apply_calls calls s) = step_completed s.
Proof.
  induction calls as [|c rest IH]; intros s; simpl.
  - repeat split; reflexivity.
  - destruct (IH (fst (save_important_fact (call_fact c) (call_source c)
                         (call_now c) s))) as (H1 & H2 & H3 & H4 & H5 & H6 & H7).
    pose proof (save_important_fact_frame (call_fact c) (call_source c)
                  (call_now c) s) as G.
    cbv zeta in G. destruct G as (G1 & G2 & G3 & G4 & G5 & G6 & G7).
    repeat split; etransitivity; eassumption.
Qed.

Lemma apply_calls_step_completed calls s :
  step_completed (apply_calls calls s) = step_completed s.
Proof. apply apply_calls_frame. Qed.

Lemma apply_calls_report_result calls s :
  report_result (apply_calls calls s) = report_result s.
Proof. apply apply_calls_frame. Qed.

Lemma apply_calls_comparison_result calls s :
  comparison_result (apply_calls calls s) = comparison_result s.
Proof. apply apply_calls_frame. Qed.

Lemma apply_calls_research_done calls s :
  research_done (apply_calls calls s) = research_done s.
Proof. apply apply_calls_frame. Qed.

Lemma apply_calls_conversation_id calls s :
  conversation_id (apply_calls calls s) = conversation_id s.
Proof. apply apply_calls_frame. Qed.

(** The entry that one tool call leaves in the Fact Sink. *)
Lemma apply_calls_snapshot calls : forall s,
  snapshot (apply_calls calls s) =
  snapshot s ++
    map (fun c => {| fact := call_fact c;
                     source := py_or (call_source c) "Not specified";
                     timestamp := strftime_HMS (call_now c) |}) calls.
Proof.
  induction calls as [|c rest IH]; intros s; cbn [apply_calls map].
  - now rewrite app_nil_r.
  - rewrite IH, save_important_fact_snapshot, <- app_assoc. reflexivity.
Qed.

(** Pushing the tool calls out of the way of the record projections. *)
Ltac simpl_state :=
  repeat first
    [ rewrite apply_calls_step_completed
    | rewrite apply_calls_report_result
    | rewrite apply_calls_comparison_result
    | rewrite apply_calls_research_done
    | rewrite apply_calls_conversation_id
    | progress simpl ].

(** Looking a flag up in [step_completed] after some stages marked theirs. *)
Ltac flag :=
  rewrite ?lookup_insert_ne by discriminate;
  rewrite ?lookup_insert_eq; auto.

(** A singleton or empty list of invocations, as a membership hypothesis. *)
Ltac invoked_in H :=
  first [ apply elem_of_nil in H; contradiction
        | apply list_elem_of_singleton in H; subst ].

(** ** Fatal abort on a research failure *)

(** C1. In every run in which the research agent is invoked and raises,
    the editor agent (Drafting) and the comparison agent (Comparing) are
    never invoked in that run, and the run does not write
    [step_completed["report"]]: the entry is at the end of the run what it
    was when the run started, so an entry that was false remains false.  This
    holds for [agent.py], which catches the exception and returns, and for
    [research_agent.py], which lets it leave [run_research]. *)
Theorem C1_research_failure_aborts env q oc s p e :
  snd (run_research_agent env p) = Raise e ->
  (p ∈ invocations research_agent (log_of (Agent.run_research env q oc s)) ->
   invocations editor_agent (log_of (Agent.run_research env q oc s)) = [] /\
   invocations comparison_agent (log_of (Agent.run_research env q oc s)) = [] /\
   step_completed (state_of (Agent.run_research env q oc s)) !! "report"
     = step_completed s !! "report" /\
   (step_completed s !! "report" = Some false ->
    step_completed (state_of (Agent.run_research env q oc s)) !! "report"
      = Some false)) /\
  (forall now,
   p ∈ invocations research_agent
         (log_of (ResearchAgent.run_research env now q oc s)) ->
   invocations editor_agent
     (log_of (ResearchAgent.run_research env now q oc s)) = [] /\
   invocations comparison_agent
     (log_of (ResearchAgent.run_research env now q oc s)) = [] /\
   step_completed (state_of (ResearchAgent.run_research env now q oc s))
     !! "report" = step_completed s !! "report" /\
   (step_completed s !! "report" = Some false ->
    step_completed (state_of (ResearchAgent.run_research env now q oc s))
      !! "report" = Some false)).
Proof.
  intros Hfail. split; [|intros now].
  - run_cases oc; intros Hin; invoked_in Hin;
      try (rewrite Eres in Hfail; discriminate Hfail);
      simpl_state;
      (split; [reflexivity|]); (split; [reflexivity|]);
      (split; [flag|intros Hflag; flag]).
  - run_cases oc; intros Hin; invoked_in Hin;
      try (rewrite Eres in Hfail; discriminate Hfail);
      simpl_state;
      (split; [reflexivity|]); (split; [reflexivity|]);
      (split; [flag|intros Hflag; flag]).
Qed.

Lemma C1_research_failure_aborts_witness :
  invocations editor_agent
    (log_of (Agent.run_research env_research_fails "quantum" None
               (fresh_session "0123456789abcdef"))) = [] /\
  step_completed
    (state_of (ResearchAgent.run_research env_research_fails sample_time
                 "quantum" None (fresh_session "0123456789abcdef")))
    !! "report" = Some false /\
  step_completed
    (state_of (Agent.run_research env_research_fails "climate" None
                 (state_of (Agent.run_research env_ok "quantum" None
                              (fresh_session "0123456789abcdef")))))
    !! "report" = Some true.
Proof.
  split; [|split].
  - apply (proj1 (C1_research_failure_aborts env_research_fails "quantum" None
                    (fresh_session "0123456789abcdef")
                    (Agent.research_prompt sample_plan) "rate limit"
                    eq_refl)).
    vm_compute. left.
  - apply (proj2 (C1_research_failure_aborts env_research_fails "quantum" None
                    (fresh_session "0123456789abcdef")
                    (ResearchAgent.research_prompt sample_plan) "rate limit"
                    eq_refl) sample_time);
      [vm_compute; left|reflexivity].
  - destruct (proj1 (C1_research_failure_aborts env_research_fails "climate"
                       None
                       (state_of (Agent.run_research env_ok "quantum" None
                                    (fresh_session "0123456789abcdef")))
                       (Agent.research_prompt sample_plan) "rate limit"
                       eq_refl) ltac:(vm_compute; left))
      as (_ & _ & Hsame & _).
    rewrite Hsame. reflexivity.
Defined.

(** ** A failing comparison *)

(** In [agent.py] a failure of the comparison agent is caught at the stage:
    the call of [run_research] ends normally with [research_done] set,
    [step_completed["report"]] true, the report of the editor agent in
    [report_result], and no comparison result. *)
Lemma agent_comparison_failure_tolerated env q oc s p e :
  run_comparison env p = Raise e ->
  p ∈ invocations comparison_agent (log_of (Agent.run_research env q oc s)) ->
  let r := Agent.run_research env q oc s in
  outcome_of r = Ok tt /\
  research_done (state_of r) = true /\
  step_completed (state_of r) !! "report" = Some true /\
  (exists p' out, p' ∈ invocations editor_agent (log_of r) /\
                  run_editor env p' = Ok out /\
                  report_result (state_of r) = Some out) /\
  comparison_result (state_of r) = None /\
  errors (log_of r) = ["Error in comparison: " +:+ e].
Proof.
  intros Hfail. cbv zeta. run_cases oc; intros Hin; invoked_in Hin;
    try congruence.
  simpl_state. repeat split; flag.
  - eexists _, _. split; [left|]. split; [eassumption|reflexivity].
  - congruence.
Qed.

(** C2. [research_agent.py] on a run with a reference document in which
    every agent succeeds except the comparison agent, which raises: the
    exception leaves [run_research] before the report tab is drawn, the
    handler around [asyncio.run] shows it and sets [research_done]; the
    report is in [report_result] and there is no comparison result, but
    [step_completed["report"]] is still false and no download button was
    drawn.  The same input run by [agent.py] ends as the claim says. *)
Theorem C2_research_agent_comparison_failure :
  let doc := {| name := "old.txt"; type := "text/plain";
                as_pdf := Raise "not a PDF";
                as_text := Ok "An older survey." |} in
  let s0 := fresh_session "0123456789abcdef" in
  let r := exec (ResearchAgent.start_research env_comparison_fails
                   sample_time "quantum" (Some doc)) s0 in
  let a := exec (Agent.start_research env_comparison_fails
                   "quantum" (Some doc)) s0 in
  outcome_of (ResearchAgent.run_research env_comparison_fails sample_time
                "quantum" (Some "An older survey.") s0) = Raise "timeout" /\
  (outcome_of r = Ok tt /\
   research_done (state_of r) = true /\
   report_result (state_of r) = Some (Structured sample_report) /\
   comparison_result (state_of r) = None /\
   step_completed (state_of r) !! "report" = Some false /\
   errors (log_of r) = ["An error occurred: timeout"] /\
   (forall b, StDownload b ∉ log_of r)) /\
  (outcome_of a = Ok tt /\
   research_done (state_of a) = true /\
   report_result (state_of a) = Some (Structured sample_report) /\
   comparison_result (state_of a) = None /\
   step_completed (state_of a) !! "report" = Some true /\
   errors (log_of a) = ["Error in comparison: timeout"]).
Proof.
  cbv zeta. split; [reflexivity|]. split.
  - repeat split; try reflexivity.
    intros b Hin. vm_compute in Hin.
    repeat (apply elem_of_cons in Hin; destruct Hin as [Hin|Hin];
            [discriminate Hin|]).
    apply elem_of_nil in Hin. exact Hin.
  - repeat split; reflexivity.
Qed.

(** ** Planning *)

(** C3, as the code has it. In every run of [agent.py], if the call of the
    planning agent raises, the run is aborted there: the failure is shown,
    neither the research agent nor the editor agent nor the comparison agent
    is invoked, and [run_research] returns without setting [research_done].
    If the call returns a plan, the research agent is invoked with the prompt
    built from it, whatever the plan holds: a plan whose [search_queries] is
    empty is not a failure. *)
Theorem C3_planning_failure_aborts env q oc s p :
  p ∈ invocations planning_agent (log_of (Agent.run_research env q oc s)) ->
  let r := Agent.run_research env q oc s in
  (forall e, run_planning env p = Raise e ->
     invocations research_agent (log_of r) = [] /\
     invocations editor_agent (log_of r) = [] /\
     invocations comparison_agent (log_of r) = [] /\
     errors (log_of r) = ["Error in planning: " +:+ e] /\
     outcome_of r = Ok tt /\
     research_done (state_of r) = false) /\
  (forall plan, run_planning env p = Ok plan ->
     invocations research_agent (log_of r) = [Agent.research_prompt plan]).
Proof.
  cbv zeta. run_cases oc; intros Hin; invoked_in Hin;
    (split; [intros e' He'|intros plan' Hp']);
    try congruence; simpl_state; repeat split; congruence.
Qed.

Lemma C3_planning_failure_aborts_witness :
  invocations research_agent
    (log_of (Agent.run_research env_planning_fails "quantum" None
               (fresh_session "0123456789abcdef"))) = [] /\
  invocations research_agent
    (log_of (Agent.run_research env_empty_plan "quantum" None
               (fresh_session "0123456789abcdef")))
  = [Agent.research_prompt empty_plan].
Proof.
  split.
  - apply (proj1 (C3_planning_failure_aborts env_planning_fails "quantum" None
                    (fresh_session "0123456789abcdef")
                    (Agent.plan_prompt env_planning_fails "quantum" None)
                    ltac:(vm_compute; left)) "bad request" eq_refl).
  - apply (proj2 (C3_planning_failure_aborts env_empty_plan "quantum" None
                    (fresh_session "0123456789abcdef")
                    (Agent.plan_prompt env_empty_plan "quantum" None)
                    ltac:(vm_compute; left)) empty_plan eq_refl).
Defined.

(** Counterexample to C3 as stated. The planning agent returns a plan with
    an empty [search_queries]; the run does not stop: the research agent is
    invoked (with an empty list of queries in its prompt), then the editor
    agent, and the run ends normally with the planning, research and report
    steps marked complete. *)
Lemma C3_counterexample :
  let r := Agent.run_research env_empty_plan "quantum" None
             (fresh_session "0123456789abcdef") in
  run_planning env_empty_plan
    (Agent.plan_prompt env_empty_plan "quantum" None) = Ok empty_plan /\
  search_queries empty_plan = [] /\
  invocations planning_agent (log_of r)
    = [Agent.plan_prompt env_empty_plan "quantum" None] /\
  invocations research_agent (log_of r)
    = [Agent.research_prompt empty_plan] /\
  invocations editor_agent (log_of r) <> [] /\
  errors (log_of r) = [] /\
  research_done (state_of r) = true /\
  step_completed (state_of r) !! "report" = Some true.
Proof. cbv zeta. repeat split; try reflexivity. discriminate. Qed.

(** ** Runs without a reference document *)

(** C4. In every run of [agent.py] with a non-empty topic and no reference
    document ([original_content] is [None], or the empty text, which the
    script treats alike), neither the gap analysis agent nor the comparison
    agent is invoked, and the run never writes [step_completed["comparison"]]:
    at every agent invocation of the run and at its end the entry is what it
    was when the run started. *)
Theorem C4_no_document_skips_gap_and_comparison env q oc s :
  q <> "" ->
  truthy_opt_str oc = false ->
  let r := Agent.run_research env q oc s in
  invocations gap_analysis_agent (log_of r) = [] /\
  invocations comparison_agent (log_of r) = [] /\
  (forall st, st ∈ states_at_any (log_of r) ->
     step_completed st !! "comparison" = step_completed s !! "comparison") /\
  step_completed (state_of r) !! "comparison"
    = step_completed s !! "comparison".
Proof.
  intros _ Hdoc. cbv zeta. run_cases oc; try discriminate Hdoc;
    simpl_state; repeat split; flag;
    intros st Hin;
    repeat (apply elem_of_cons in Hin as [->|Hin]; [simpl_state; flag|]);
    apply elem_of_nil in Hin; contradiction.
Qed.

Lemma C4_no_document_skips_gap_and_comparison_witness :
  invocations gap_analysis_agent
    (log_of (Agent.run_research env_ok "quantum" None
               (fresh_session "0123456789abcdef"))) = [] /\
  step_completed
    (state_of (Agent.run_research env_ok "quantum" None
                 (fresh_session "0123456789abcdef"))) !! "comparison"
  = Some false.
Proof.
  pose proof (C4_no_document_skips_gap_and_comparison env_ok "quantum" None
                (fresh_session "0123456789abcdef")
                ltac:(discriminate) eq_refl) as H.
  cbv zeta in H. destruct H as (Hg & _ & _ & Hf).
  split; [exact Hg|]. rewrite Hf. reflexivity.
Defined.

(** ** The start of a run *)

(** The first agent invoked in a run, whichever it is, sees the session
    state exactly as the four assignments at the top of [run_research] leave
    it. *)
Lemma first_stage_sees_reset env q oc s :
  head (states_at_any (log_of (Agent.run_research env q oc s)))
  = Some (reset_run s).
Proof. run_cases oc; reflexivity. Qed.

Lemma first_stage_sees_reset_research_agent env now q oc s :
  head (states_at_any (log_of (ResearchAgent.run_research env now q oc s)))
  = Some (reset_run s).
Proof. run_cases oc; reflexivity. Qed.

(** Marking a step never clears another flag. *)
Lemma mark_keeps_true (m : gmap string bool) (k k' : string) :
  m !! k = Some true -> <[k' := true]> m !! k = Some true.
Proof.
  intros H. destruct (decide (k' = k)) as [->|Hne].
  - apply lookup_insert_eq.
  - rewrite lookup_insert_ne; assumption.
Qed.

(** In whatever session state [s] a run starts, the first agent invoked
    sees the results reset, and the research agent starts from an empty Fact
    Sink. *)
Lemma run_start_resets env q oc s :
  let r := Agent.run_research env q oc s in
  (exists st, head (states_at_any (log_of r)) = Some st /\
     collected_facts st = Some [] /\
     report_result st = None /\
     comparison_result st = None) /\
  (forall st, st ∈ states_at research_agent (log_of r) -> snapshot st = []).
Proof.
  cbv zeta. split.
  - exists (reset_run s). split; [apply first_stage_sees_reset|].
    repeat split; reflexivity.
  - run_cases oc; intros st Hin; invoked_in Hin; reflexivity.
Qed.

Lemma run_start_resets_research_agent env now q oc s :
  let r := ResearchAgent.run_research env now q oc s in
  (exists st, head (states_at_any (log_of r)) = Some st /\
     collected_facts st = Some [] /\
     report_result st = None /\
     comparison_result st = None) /\
  (forall st, st ∈ states_at research_agent (log_of r) -> snapshot st = []).
Proof.
  cbv zeta. split.
  - exists (reset_run s).
    split; [apply first_stage_sees_reset_research_agent|].
    repeat split; reflexivity.
  - run_cases oc; intros st Hin; invoked_in Hin; reflexivity.
Qed.

(** C5. Take any run N (any agents' behaviour, any topic, any document,
    any number of facts collected) and start run N+1 in the session state it
    leaves.  The first agent invoked in run N+1 sees the collected facts
    reset to the empty list and the report and comparison results reset to
    [None]; and whenever the research agent of run N+1 is invoked, the Fact
    Sink snapshot is empty.  Stated for [agent.py] and, second, for
    [research_agent.py]. *)
Theorem C5_run_start_resets_results envN qN ocN s0 env q oc :
  (let sN := state_of (Agent.run_research envN qN ocN s0) in
   let r := Agent.run_research env q oc sN in
   (exists st, head (states_at_any (log_of r)) = Some st /\
      collected_facts st = Some [] /\
      report_result st = None /\
      comparison_result st = None) /\
   (forall st, st ∈ states_at research_agent (log_of r) -> snapshot st = []))
  /\
  (forall nowN now,
   let sN := state_of (ResearchAgent.run_research envN nowN qN ocN s0) in
   let r := ResearchAgent.run_research env now q oc sN in
   (exists st, head (states_at_any (log_of r)) = Some st /\
      collected_facts st = Some [] /\
      report_result st = None /\
      comparison_result st = None) /\
   (forall st, st ∈ states_at research_agent (log_of r) -> snapshot st = [])).
Proof.
  split.
  - cbv zeta. apply run_start_resets.
  - intros nowN now. cbv zeta. apply run_start_resets_research_agent.
Qed.

Lemma C5_run_start_resets_results_witness :
  snapshot (state_of (Agent.run_research env_ok "quantum" None
                        (fresh_session "0123456789abcdef")))
  <> [] /\
  forall st,
    st ∈ states_at research_agent
           (log_of (Agent.run_research env_ok "climate" None
                      (state_of (Agent.run_research env_ok "quantum" None
                                   (fresh_session "0123456789abcdef"))))) ->
    snapshot st = [].
Proof.
  split; [vm_compute; discriminate|].
  exact (proj2 (proj1 (C5_run_start_resets_results env_ok "quantum" None
                         (fresh_session "0123456789abcdef")
                         env_ok "climate" None))).
Defined.

(** C10. Entering [run_research] of [agent.py] assigns [collected_facts],
    [research_done], [report_result] and [comparison_result] and nothing
    else: in the state that the first agent of the run sees,
    [step_completed], [conversation_id], [original_content] and
    [current_step] are those of the state [s] in which the run started.  So
    a flag of [step_completed] that was true in [s], for instance because an
    earlier run of the session set it, is true at every agent invocation of
    the new run and at its end. *)
Theorem C10_run_start_keeps_step_flags env q oc s :
  let r := Agent.run_research env q oc s in
  (exists st, head (states_at_any (log_of r)) = Some st /\
     step_completed st = step_completed s /\
     conversation_id st = conversation_id s /\
     original_content st = original_content s /\
     current_step st = current_step s /\
     collected_facts st = Some [] /\
     research_done st = false /\
     report_result st = None /\
     comparison_result st = None) /\
  (forall k, step_completed s !! k = Some true ->
     (forall st, st ∈ states_at_any (log_of r) ->
        step_completed st !! k = Some true) /\
     step_completed (state_of r) !! k = Some true).
Proof.
  cbv zeta. split.
  - exists (reset_run s). split; [apply first_stage_sees_reset|].
    repeat split; reflexivity.
  - intros k Hk. run_cases oc; simpl_state;
      (split;
       [ intros st Hin;
         repeat (apply elem_of_cons in Hin as [->|Hin];
                 [simpl_state; repeat apply mark_keeps_true; exact Hk|]);
         apply elem_of_nil in Hin; contradiction
       | repeat apply mark_keeps_true; exact Hk ]).
Qed.

Lemma C10_run_start_keeps_step_flags_witness :
  let s1 := state_of (Agent.run_research env_ok "quantum"
                        (Some "An older survey.")
                        (fresh_session "0123456789abcdef")) in
  step_completed s1 !! "comparison" = Some true /\
  forall st,
    st ∈ states_at_any
           (log_of (Agent.run_research env_research_fails "climate" None s1))
    -> step_completed st !! "comparison" = Some true.
Proof.
  cbv zeta. split; [reflexivity|].
  exact (proj1 (proj2 (C10_run_start_keeps_step_flags env_research_fails
                         "climate" None
                         (state_of (Agent.run_research env_ok "quantum"
                                      (Some "An older survey.")
                                      (fresh_session "0123456789abcdef"))))
                  "comparison" eq_refl)).
Defined.

(** ** The Fact Sink *)

(** C6, as the code has it. Every call of [save_important_fact], whatever
    the fact string (the empty string included), appends exactly one entry at
    the end of the list of collected facts and changes nothing else in the
    session: each of the seven other keys keeps its value.  The entry carries the fact, the time of the call formatted
    [HH:MM:SS], and as its source the given one when it is a non-empty string
    and the literal [Not specified] when the source is omitted or empty.  The
    call returns the acknowledgement. *)
Theorem C6_save_important_fact_appends f src now s :
  let s' := fst (save_important_fact f src now s) in
  (exists entry,
     snapshot s' = snapshot s ++ [entry] /\
     collected_facts s' = Some (snapshot s') /\
     fact entry = f /\
     timestamp entry = strftime_HMS now /\
     (src = None -> source entry = "Not specified") /\
     (src = Some "" -> source entry = "Not specified") /\
     (forall x, src = Some x -> x <> "" -> source entry = x)) /\
  length (snapshot s') = S (length (snapshot s)) /\
  step_completed s' = step_completed s /\
  report_result s' = report_result s /\
  comparison_result s' = comparison_result s /\
  research_done s' = research_done s /\
  conversation_id s' = conversation_id s /\
  original_content s' = original_content s /\
  current_step s' = current_step s /\
  snd (save_important_fact f src now s) = "Fact saved: " +:+ f.
Proof.
  cbv zeta.
  pose proof (save_important_fact_snapshot f src now s) as Hsnap.
  pose proof (save_important_fact_frame f src now s) as Hfr.
  cbv zeta in Hfr. destruct Hfr as (F1 & F2 & F3 & F4 & F5 & F6 & F7).
  split; [|repeat split; try assumption].
  - eexists. split; [exact Hsnap|]. split.
    + rewrite Hsnap. unfold save_important_fact, snapshot.
      destruct (collected_facts s) eqn:E; simpl; rewrite ?E; reflexivity.
    + simpl. repeat split.
      * intros ->. reflexivity.
      * intros ->. reflexivity.
      * intros x -> Hx. destruct x; [contradiction|reflexivity].
  - rewrite Hsnap, length_app. simpl. lia.
Qed.

Lemma C6_save_important_fact_appends_witness :
  snapshot (fst (save_important_fact "1000 qubits" None sample_time
                   (fresh_session "0123456789abcdef")))
  = [{| fact := "1000 qubits"; source := "Not specified";
        timestamp := "14:05:59" |}].
Proof.
  destruct (C6_save_important_fact_appends "1000 qubits" None sample_time
              (fresh_session "0123456789abcdef"))
    as ((entry & Hs & _ & Hf & Ht & Hnone & _) & _).
  rewrite Hs. destruct entry as [ef es et]. simpl in *.
  rewrite Hf, Ht, (Hnone eq_refl). reflexivity.
Defined.

(** Counterexample to C6 as stated. A call with the empty fact string is
    neither rejected nor ignored: it appends an entry whose fact is empty. *)
Lemma C6_counterexample :
  let s := fresh_session "0123456789abcdef" in
  let s' := fst (save_important_fact "" None sample_time s) in
  snapshot s = [] /\
  snapshot s' = [{| fact := ""; source := "Not specified";
                    timestamp := "14:05:59" |}] /\
  snapshot s' <> snapshot s /\
  snd (save_important_fact "" None sample_time s) = "Fact saved: ".
Proof. cbv zeta. repeat split; try reflexivity. discriminate. Qed.

(** ** Strings *)

Lemma string_app_cons a s t : String a s +:+ t = String a (s +:+ t).
Proof. reflexivity. Qed.

Lemma string_app_nil_r s : s +:+ "" = s.
Proof.
  induction s as [|a s IH]; [reflexivity|].
  rewrite string_app_cons, IH. reflexivity.
Qed.

Lemma string_app_assoc s t u : (s +:+ t) +:+ u = s +:+ (t +:+ u).
Proof.
  induction s as [|a s IH]; [reflexivity|].
  rewrite !string_app_cons, IH. reflexivity.
Qed.

Lemma concat_empty_cons x l :
  String.concat "" (x :: l) = x +:+ String.concat "" l.
Proof.
  destruct l as [|y l]; cbn [String.concat].
  - symmetry. apply string_app_nil_r.
  - reflexivity.
Qed.

Lemma embeds_intro pre part post : embeds part (pre +:+ part +:+ post).
Proof. exists pre, post. reflexivity. Qed.

(** ** The Document Loader *)

Lemma extract_pages_all_ok texts : forall acc,
  extract_pages acc (map Ok texts) = Ok (acc +:+ String.concat "" texts).
Proof.
  induction texts as [|t rest IH]; intros acc; cbn [map extract_pages].
  - cbn [String.concat]. now rewrite string_app_nil_r.
  - rewrite IH, concat_empty_cons, string_app_assoc. reflexivity.
Qed.

Lemma extract_pages_some_fails pages : forall acc e,
  Raise e ∈ pages -> exists e', extract_pages acc pages = Raise e'.
Proof.
  induction pages as [|pg rest IH]; intros acc e Hin.
  - apply elem_of_nil in Hin. contradiction.
  - destruct pg as [t|e0]; cbn [extract_pages].
    + apply elem_of_cons in Hin as [Heq|Hin]; [discriminate Heq|].
      eapply IH; eassumption.
    + eexists; reflexivity.
Qed.

(** A file that [PyPDF2.PdfReader] refuses gives no text either. *)
Lemma extract_pdf_text_unreadable e w :
  Agent.extract_pdf_text (Raise e) w
  = (Val None,
     {| session := session w;
        events := events w ++ [StError ("Error extracting PDF: " +:+ e)] |})
  /\ ResearchAgent.extract_pdf_text (Raise e) w = (Raised e, w).
Proof. split; reflexivity. Qed.

(** C7. For a PDF that [PyPDF2] opens with the pages [pages]:
    when the text extraction of every page succeeds, [extract_pdf_text]
    returns the texts of the pages concatenated in document order, in both
    scripts; when the extraction of some page raises, no text is returned at
    all: in [agent.py] the error is shown and the result is [None], in
    [research_agent.py] the exception leaves the function (and its caller
    sets [original_content] to [None]). *)
Theorem C7_pdf_extraction_all_or_nothing (pages : list Page) (w : World) :
  (forall texts, pages = map Ok texts ->
     Agent.extract_pdf_text (Ok pages) w
       = (Val (Some (String.concat "" texts)), w) /\
     ResearchAgent.extract_pdf_text (Ok pages) w
       = (Val (String.concat "" texts), w)) /\
  (forall e, Raise e ∈ pages ->
     exists e',
       Agent.extract_pdf_text (Ok pages) w
         = (Val None,
            {| session := session w;
               events := events w ++
                           [StError ("Error extracting PDF: " +:+ e')] |}) /\
       ResearchAgent.extract_pdf_text (Ok pages) w = (Raised e', w)).
Proof.
  split.
  - intros texts ->.
    unfold Agent.extract_pdf_text, ResearchAgent.extract_pdf_text,
      try_except, bind, lift, ret.
    rewrite extract_pages_all_ok. split; reflexivity.
  - intros e Hin.
    destruct (extract_pages_some_fails pages "" e Hin) as [e' He'].
    exists e'.
    unfold Agent.extract_pdf_text, ResearchAgent.extract_pdf_text,
      try_except, bind, lift, ret, st_error, emit.
    rewrite He'. split; reflexivity.
Qed.

Lemma C7_pdf_extraction_all_or_nothing_witness :
  let w := {| session := fresh_session "0123456789abcdef"; events := [] |} in
  Agent.extract_pdf_text (Ok [Ok "page one. "; Ok "page two."]) w
    = (Val (Some "page one. page two."), w) /\
  exists e',
    ResearchAgent.extract_pdf_text
      (Ok [Ok "page one. "; Raise "bad stream"; Ok "page three."]) w
    = (Raised e', w).
Proof.
  cbv zeta. split.
  - exact (proj1 (proj1 (C7_pdf_extraction_all_or_nothing
                           [Ok "page one. "; Ok "page two."] _)
                    ["page one. "; "page two."] eq_refl)).
  - destruct (proj2 (C7_pdf_extraction_all_or_nothing
                       [Ok "page one. "; Raise "bad stream"; Ok "page three."]
                       {| session := fresh_session "0123456789abcdef";
                          events := [] |})
                "bad stream") as [e' [_ H]].
    + right. left.
    + exists e'. exact H.
Defined.

(** ** The Drafting prompt *)

(** The text that follows the findings in the Drafting prompt. *)
Lemma report_prompt_shape q rr :
  Agent.report_prompt q rr
  = ("Research Query: " +:+ q +:+ nl +:+ "Research Findings:" +:+ nl) +:+
    Agent.findings rr +:+
    (nl +:+
     "Write a comprehensive, detailed research report (5-10 pages, 1500+ words)."
     +:+ nl +:+
     "Use clear sections, headings, and professional formatting.").
Proof. unfold Agent.report_prompt. now rewrite !string_app_assoc. Qed.

Lemma report_prompt_shape_research_agent q rr :
  ResearchAgent.report_prompt q rr
  = ("Research Query: " +:+ q +:+ nl +:+ nl +:+ "Research Findings:" +:+ nl)
    +:+ Agent.findings rr +:+
    (nl +:+ nl +:+
     "Write a comprehensive, detailed research report (5-10 pages, 1500+ words)."
     +:+ nl +:+
     "Use clear sections, headings, and professional formatting.").
Proof. unfold ResearchAgent.report_prompt. now rewrite !string_app_assoc. Qed.

(** The placeholder stands in for a missing result object only: a result
    whose [final_output] is the empty string is embedded as it is. *)
Lemma report_prompt_empty_output q :
  Agent.findings (Some {| final_output := "" |}) = "" /\
  Agent.report_prompt q (Some {| final_output := "" |})
  <> Agent.report_prompt q None.
Proof.
  split; [reflexivity|].
  unfold Agent.report_prompt. intros H.
  repeat (apply (inj (String.app _)) in H).
  discriminate H.
Qed.

Lemma report_prompt_embeds_query q rr : embeds q (Agent.report_prompt q rr).
Proof. apply (embeds_intro "Research Query: "). Qed.

Lemma report_prompt_embeds_query_research_agent q rr :
  embeds q (ResearchAgent.report_prompt q rr).
Proof. apply (embeds_intro "Research Query: "). Qed.

(** C8, as the code has it. In every run in which the editor agent
    (Drafting) is invoked, with prompt [p], the research agent was invoked
    before and returned some [rr]; [p] embeds the query, and [p] is the
    Drafting template of the script with, in the place of the findings, the
    [final_output] of the research result, as it is, when there is a result
    object (also when that text is empty), and the literal
    [Research completed] when there is no result object ([rr] is [None]).
    Both scripts; [research_agent.py] has blank lines in its template. *)
Theorem C8_drafting_prompt env q oc s p :
  (p ∈ invocations editor_agent (log_of (Agent.run_research env q oc s)) ->
   exists pr calls rr,
     pr ∈ invocations research_agent (log_of (Agent.run_research env q oc s))
     /\ run_research_agent env pr = (calls, Ok rr)
     /\ embeds q p
     /\ p = ("Research Query: " +:+ q +:+ nl +:+ "Research Findings:" +:+ nl)
            +:+ match rr with
                | Some r => final_output r
                | None => "Research completed"
                end +:+
            (nl +:+
             "Write a comprehensive, detailed research report (5-10 pages, 1500+ words)."
             +:+ nl +:+
             "Use clear sections, headings, and professional formatting.")) /\
  (forall now,
   p ∈ invocations editor_agent
         (log_of (ResearchAgent.run_research env now q oc s)) ->
   exists pr calls rr,
     pr ∈ invocations research_agent
            (log_of (ResearchAgent.run_research env now q oc s))
     /\ run_research_agent env pr = (calls, Ok rr)
     /\ embeds q p
     /\ p = ("Research Query: " +:+ q +:+ nl +:+ nl +:+
             "Research Findings:" +:+ nl)
            +:+ match rr with
                | Some r => final_output r
                | None => "Research completed"
                end +:+
            (nl +:+ nl +:+
             "Write a comprehensive, detailed research report (5-10 pages, 1500+ words)."
             +:+ nl +:+
             "Use clear sections, headings, and professional formatting.")).
Proof.
  split; [|intros now].
  - run_cases oc; intros Hin; invoked_in Hin;
      (eexists _, _, _; split; [left|]; split; [eassumption|];
       split; [apply report_prompt_embeds_query|apply report_prompt_shape]).
  - run_cases oc; intros Hin; invoked_in Hin;
      (eexists _, _, _; split; [left|]; split; [eassumption|];
       split; [apply report_prompt_embeds_query_research_agent
              |apply report_prompt_shape_research_agent]).
Qed.

Lemma C8_drafting_prompt_witness :
  (exists pr calls rr,
     run_research_agent env_ok pr = (calls, Ok rr) /\
     embeds "quantum" (Agent.report_prompt "quantum"
                         (Some {| final_output := "findings" |}))) /\
  (exists pr calls rr,
     run_research_agent env_no_result pr = (calls, Ok rr) /\
     embeds "quantum" (Agent.report_prompt "quantum" None)).
Proof.
  split.
  - destruct (proj1 (C8_drafting_prompt env_ok "quantum" None
                       (fresh_session "0123456789abcdef")
                       (Agent.report_prompt "quantum"
                          (Some {| final_output := "findings" |})))
                ltac:(vm_compute; left))
      as (pr & calls & rr & _ & Hrun & Hemb & _).
    exists pr, calls, rr. split; [exact Hrun|exact Hemb].
  - destruct (proj1 (C8_drafting_prompt env_no_result "quantum" None
                       (fresh_session "0123456789abcdef")
                       (Agent.report_prompt "quantum" None))
                ltac:(vm_compute; left))
      as (pr & calls & rr & _ & Hrun & Hemb & _).
    exists pr, calls, rr. split; [exact Hrun|exact Hemb].
Defined.

(** ** The downloadable artifact *)

Lemma digit_value_digit n : digit_value (digit n) = Some (n mod 10).
Proof.
  unfold digit_value, digit.
  assert (0 <= n mod 10 < 10) as Hm by (apply Z.mod_pos_bound; lia).
  rewrite nat_ascii_embedding by lia.
  rewrite Z2Nat.id by lia. cbv zeta.
  destruct (48 <=? 48 + n mod 10) eqn:H1; [|lia].
  destruct (48 + n mod 10 <=? 57) eqn:H2; [|lia].
  simpl. f_equal. lia.
Qed.

Lemma parse_digits_two n rest acc :
  0 <= n <= 99 ->
  parse_digits 2 (two_digits n +:+ rest) acc = Some (100 * acc + n, rest).
Proof.
  intros Hn. unfold two_digits. rewrite !string_app_cons.
  cbn [parse_digits]. rewrite !digit_value_digit.
  change ("" +:+ rest) with rest. do 2 f_equal.
  Z.to_euclidean_division_equations. lia.
Qed.

Lemma parse_digits_four n rest acc :
  0 <= n <= 9999 ->
  parse_digits 4 (four_digits n +:+ rest) acc = Some (10000 * acc + n, rest).
Proof.
  intros Hn. unfold four_digits. rewrite !string_app_cons.
  cbn [parse_digits]. rewrite !digit_value_digit.
  change ("" +:+ rest) with rest. do 2 f_equal.
  Z.to_euclidean_division_equations. lia.
Qed.

Lemma strip_prefix_app pre s : strip_prefix pre (pre +:+ s) = Some s.
Proof.
  induction pre as [|a pre IH]; [reflexivity|].
  rewrite string_app_cons. cbn [strip_prefix].
  now rewrite Ascii.eqb_refl.
Qed.

(** The file name of the download button reads back as the time at which
    the button was drawn, with the extension [md]. *)
Lemma report_name_roundtrip now :
  wall_clock now ->
  parse_report_name ("research_report_" +:+ strftime_stamp now +:+ ".md")
  = Some (now, "md").
Proof.
  intros (Hy & Hmo & Hd & Hh & Hmi & Hs).
  unfold parse_report_name. rewrite strip_prefix_app.
  unfold strftime_stamp. rewrite !string_app_assoc.
  rewrite parse_digits_four by lia.
  rewrite parse_digits_two by lia.
  rewrite parse_digits_two by lia.
  change ("_" +:+ ?x) with (String "_" x).
  cbv iota beta.
  rewrite parse_digits_two by lia.
  rewrite parse_digits_two by lia.
  rewrite parse_digits_two by lia.
  destruct now; reflexivity.
Qed.

Lemma occurs_in_at_front part whole rest :
  strip_prefix part whole = Some rest -> occurs_in part whole = true.
Proof. intros H. destruct whole; cbn [occurs_in]; now rewrite H. Qed.

Lemma embeds_occurs_in part whole :
  embeds part whole -> occurs_in part whole = true.
Proof.
  intros (pre & post & ->).
  induction pre as [|a pre IH].
  - change ("" +:+ part +:+ post) with (part +:+ post).
    apply (occurs_in_at_front _ _ post), strip_prefix_app.
  - rewrite string_app_cons. cbn [occurs_in].
    destruct (strip_prefix part (String a (pre +:+ part +:+ post)));
      [reflexivity|exact IH].
Qed.

(** Counterexample to C8 as stated. The research agent returns a result
    whose text is empty, so the research stage returned no textual output;
    the Drafting prompt of either script is the template around the empty
    text, and the placeholder [Research completed] occurs nowhere in it. *)
Lemma C8_counterexample :
  let s0 := fresh_session "0123456789abcdef" in
  run_research_agent env_empty_output (Agent.research_prompt sample_plan)
  = ([], Ok (Some {| final_output := "" |})) /\
  invocations editor_agent
    (log_of (Agent.run_research env_empty_output "quantum" None s0))
  = [Agent.report_prompt "quantum" (Some {| final_output := "" |})] /\
  ~ embeds "Research completed"
      (Agent.report_prompt "quantum" (Some {| final_output := "" |})) /\
  invocations editor_agent
    (log_of (ResearchAgent.run_research env_empty_output sample_time
               "quantum" None s0))
  = [ResearchAgent.report_prompt "quantum" (Some {| final_output := "" |})]
  /\
  ~ embeds "Research completed"
      (ResearchAgent.report_prompt "quantum"
         (Some {| final_output := "" |})).
Proof.
  cbv zeta. split; [reflexivity|]. split; [reflexivity|]. split; [|split].
  - intros H. apply embeds_occurs_in in H. vm_compute in H. discriminate H.
  - reflexivity.
  - intros H. apply embeds_occurs_in in H. vm_compute in H. discriminate H.
Qed.

(** C9. Every download button that the scripts draw at a wall-clock time
    [now] comes from a structured report in [report_result]; its content is
    the [report] field of that report, unchanged; its MIME type is
    [text/markdown]; and its file name is [research_report_], the stamp
    [YYYYMMDD_HHMMSS] of [now] and [.md], so that reading the name back
    gives [now] and the extension [md].  [agent.py] draws the button when the
    results are displayed, [research_agent.py] at the end of the run. *)
Theorem C9_download_artifact now b :
  wall_clock now ->
  (forall s, Agent.download_button now s = Some b ->
     exists r, report_result s = Some (Structured r) /\
       data b = report r /\
       mime b = "text/markdown" /\
       file_name b = "research_report_" +:+ strftime_stamp now +:+ ".md" /\
       parse_report_name (file_name b) = Some (now, "md")) /\
  (forall env q oc s,
     StDownload b ∈ log_of (ResearchAgent.run_research env now q oc s) ->
     exists r,
       report_result (state_of (ResearchAgent.run_research env now q oc s))
         = Some (Structured r) /\
       data b = report r /\
       mime b = "text/markdown" /\
       file_name b = "research_report_" +:+ strftime_stamp now +:+ ".md" /\
       parse_report_name (file_name b) = Some (now, "md")).
Proof.
  intros Hnow. split.
  - intros s Hb. unfold Agent.download_button in Hb.
    destruct (research_done s); [|discriminate Hb].
    destruct (report_result s) as [[r|t]|]; simpl in Hb;
      try discriminate Hb.
    + injection Hb as <-. exists r. simpl.
      repeat split. now apply report_name_roundtrip.
    + destruct (truthy_str t); discriminate Hb.
  - intros env q oc s. run_cases oc; intros Hin;
      repeat (apply elem_of_cons in Hin as [Hin|Hin];
              [try discriminate Hin|]);
      try (apply elem_of_nil in Hin; contradiction);
      injection Hin as ->; eexists; simpl_state;
      (split; [reflexivity|]); repeat split;
      now apply report_name_roundtrip.
Qed.

Lemma C9_download_artifact_witness :
  exists b,
    Agent.download_button sample_time
      (state_of (Agent.run_research env_ok "quantum" None
                   (fresh_session "0123456789abcdef"))) = Some b /\
    data b = "# Title" +:+ nl +:+ nl +:+ "Body" /\
    file_name b = "research_report_20250309_140559.md" /\
    mime b = "text/markdown" /\
    parse_report_name (file_name b) = Some (sample_time, "md").
Proof.
  eexists. split; [vm_compute; reflexivity|].
  destruct (proj1 (C9_download_artifact sample_time
                     {| data := "# Title" +:+ nl +:+ nl +:+ "Body";
                        file_name := "research_report_20250309_140559.md";
                        mime := "text/markdown" |}
                     ltac:(unfold wall_clock; simpl; lia))
              (state_of (Agent.run_research env_ok "quantum" None
                           (fresh_session "0123456789abcdef")))
              ltac:(vm_compute; reflexivity))
    as (r & _ & _ & Hm & _ & Hp).
  split; [reflexivity|]. split; [reflexivity|].
  split; [exact Hm|exact Hp].
Defined.

(** * Further properties of the scripts *)

(** ** The other stage failures of [agent.py] *)

(** A failure of the gap analysis agent ends the run at once: no other agent
    is invoked, the failure is shown, the step flags are untouched, and
    [run_research] returns with the results reset and [research_done]
    false. *)
Theorem gap_failure_aborts env q oc s p e :
  p ∈ invocations gap_analysis_agent
        (log_of (Agent.run_research env q oc s)) ->
  run_gap_analysis env p = Raise e ->
  let r := Agent.run_research env q oc s in
  agents_invoked (log_of r) = [gap_analysis_agent] /\
  errors (log_of r) = ["Error in gap analysis: " +:+ e] /\
  outcome_of r = Ok tt /\
  research_done (state_of r) = false /\
  step_completed (state_of r) = step_completed s /\
  report_result (state_of r) = None /\
  comparison_result (state_of r) = None /\
  snapshot (state_of r) = [].
Proof.
  cbv zeta. run_cases oc; intros Hin; invoked_in Hin; intros Hfail;
    try congruence.
  repeat split; congruence.
Qed.

Lemma gap_failure_aborts_witness :
  agents_invoked
    (log_of (Agent.run_research env_gap_fails "quantum"
               (Some "An older survey.")
               (fresh_session "0123456789abcdef")))
  = [gap_analysis_agent].
Proof.
  exact (proj1 (gap_failure_aborts env_gap_fails "quantum"
                  (Some "An older survey.")
                  (fresh_session "0123456789abcdef")
                  (Agent.gap_prompt "An older survey." "quantum")
                  "overloaded" ltac:(vm_compute; left) eq_refl)).
Defined.

(** A failure of the editor agent ends the run before the comparison: the
    failure is shown, there is no report, the planning and research steps are
    marked complete and the [report] flag is left as it was; since
    [run_research] returns before it sets [research_done], no download button
    is drawn afterwards. *)
Theorem editor_failure_aborts env q oc s p e :
  p ∈ invocations editor_agent (log_of (Agent.run_research env q oc s)) ->
  run_editor env p = Raise e ->
  let r := Agent.run_research env q oc s in
  invocations comparison_agent (log_of r) = [] /\
  errors (log_of r) = ["Error generating report: " +:+ e] /\
  outcome_of r = Ok tt /\
  report_result (state_of r) = None /\
  research_done (state_of r) = false /\
  step_completed (state_of r) !! "planning" = Some true /\
  step_completed (state_of r) !! "research" = Some true /\
  step_completed (state_of r) !! "report" = step_completed s !! "report" /\
  (forall now, Agent.download_button now (state_of r) = None).
Proof.
  cbv zeta. run_cases oc; intros Hin; invoked_in Hin; intros Hfail;
    try congruence;
    unfold Agent.download_button; simpl_state; repeat split; flag;
    congruence.
Qed.

Lemma editor_failure_aborts_witness :
  invocations comparison_agent
    (log_of (Agent.run_research env_editor_fails "quantum"
               (Some "An older survey.")
               (fresh_session "0123456789abcdef"))) = [] /\
  research_done
    (state_of (Agent.run_research env_editor_fails "quantum"
                 (Some "An older survey.")
                 (fresh_session "0123456789abcdef"))) = false.
Proof.
  destruct (editor_failure_aborts env_editor_fails "quantum"
              (Some "An older survey.")
              (fresh_session "0123456789abcdef")
              (Agent.report_prompt "quantum"
                 (Some {| final_output := "findings" |}))
              "context too long" ltac:(vm_compute; left) eq_refl)
    as (H1 & _ & _ & _ & H2 & _).
  split; [exact H1|exact H2].
Defined.

(** ** The order of the stages *)

(** In every run of either script the agents are invoked one after the
    other in the fixed order gap analysis, planning, research, editor,
    comparison, each at most once, the run stopping somewhere along the
    way; without a reference document the list is planning, research,
    editor.  At least one agent is always invoked. *)
Theorem stages_run_in_order env q oc s :
  let full :=
    if truthy_opt_str oc
    then [gap_analysis_agent; planning_agent; research_agent; editor_agent;
          comparison_agent]
    else [planning_agent; research_agent; editor_agent] in
  (agents_invoked (log_of (Agent.run_research env q oc s)) `prefix_of` full
   /\ agents_invoked (log_of (Agent.run_research env q oc s)) <> []) /\
  (forall now,
   agents_invoked (log_of (ResearchAgent.run_research env now q oc s))
     `prefix_of` full
   /\ agents_invoked (log_of (ResearchAgent.run_research env now q oc s))
      <> []).
Proof.
  cbv zeta. split; [|intros now];
    run_cases oc; (split; [eexists; reflexivity|discriminate]).
Qed.

(** ** What a run of [agent.py] leaves behind *)

(** The results in the session at the end of a run are those of that run,
    never leftovers of an earlier one: a report there was returned by the
    editor agent in this run, a comparison there was returned by the
    comparison agent in this run (so there was a reference document), and
    [research_done] is set exactly when there is a report. *)
Theorem results_come_from_this_run env q oc s :
  let r := Agent.run_research env q oc s in
  (forall out, report_result (state_of r) = Some out ->
     exists p, p ∈ invocations editor_agent (log_of r) /\
               run_editor env p = Ok out) /\
  (forall c, comparison_result (state_of r) = Some c ->
     truthy_opt_str oc = true /\
     exists p, p ∈ invocations comparison_agent (log_of r) /\
               run_comparison env p = Ok c) /\
  (research_done (state_of r) = true <->
   is_Some (report_result (state_of r))).
Proof.
  cbv zeta. run_cases oc; simpl_state;
    (split;
     [ intros ? Heq;
       first [ discriminate Heq
             | injection Heq as <-; eexists; (split; [left|eassumption]) ]
     | split;
       [ intros ? Heq;
         first [ discriminate Heq
               | injection Heq as <-;
                 (split; [reflexivity|]); eexists;
                 (split; [left|eassumption]) ]
       | split;
         [ intros Hd; first [discriminate Hd|eexists; reflexivity]
         | intros [? Hs]; first [discriminate Hs|reflexivity] ] ] ]).
Qed.

Lemma results_come_from_this_run_witness :
  exists p,
    p ∈ invocations editor_agent
          (log_of (Agent.run_research env_ok "quantum" None
                     (fresh_session "0123456789abcdef"))) /\
    run_editor env_ok p = Ok (Structured sample_report).
Proof.
  exact (proj1 (results_come_from_this_run env_ok "quantum" None
                  (fresh_session "0123456789abcdef"))
           (Structured sample_report) eq_refl).
Defined.

Lemma snapshot_mark_step k s : snapshot (mark_step k s) = snapshot s.
Proof. reflexivity. Qed.

Lemma snapshot_set_research_done v s :
  snapshot (set_research_done v s) = snapshot s.
Proof. reflexivity. Qed.

Lemma snapshot_set_report_result v s :
  snapshot (set_report_result v s) = snapshot s.
Proof. reflexivity. Qed.

Lemma snapshot_set_comparison_result v s :
  snapshot (set_comparison_result v s) = snapshot s.
Proof. reflexivity. Qed.

Lemma snapshot_set_original_content v s :
  snapshot (set_original_content v s) = snapshot s.
Proof. reflexivity. Qed.

(** Reading the Fact Sink through the assignments to the other keys. *)
Ltac push_snapshot :=
  repeat first
    [ rewrite snapshot_mark_step
    | rewrite snapshot_set_research_done
    | rewrite snapshot_set_report_result
    | rewrite snapshot_set_comparison_result
    | rewrite snapshot_set_original_content
    | rewrite apply_calls_snapshot ].

(** The Fact Sink at the end of a run holds exactly the entries of the
    tool calls of this run that reached the session state of the script, in
    the order of the calls, whether the research agent then returned or
    raised, and whatever the sink held before the run: nothing of an earlier
    run is left and nothing else writes to it.  It is empty when the run did
    not get to the research stage, and when no tool call reached the session.
    Both scripts. *)
Theorem facts_are_those_of_this_run env q oc s :
  (let r := Agent.run_research env q oc s in
   (invocations research_agent (log_of r) = [] -> snapshot (state_of r) = [])
   /\
   (forall p, p ∈ invocations research_agent (log_of r) ->
      snapshot (state_of r)
      = map entry_of_call (fst (run_research_agent env p)))) /\
  (forall now,
   let r := ResearchAgent.run_research env now q oc s in
   (invocations research_agent (log_of r) = [] -> snapshot (state_of r) = [])
   /\
   (forall p, p ∈ invocations research_agent (log_of r) ->
      snapshot (state_of r)
      = map entry_of_call (fst (run_research_agent env p)))).
Proof.
  split; [|intros now]; cbv zeta;
    run_cases oc;
    (split;
     [ intros Hnone; first [discriminate Hnone|reflexivity]
     | intros p Hin; invoked_in Hin; rewrite ?Eres;
       cbn [fst state_of snd]; push_snapshot; reflexivity ]).
Qed.

Lemma facts_are_those_of_this_run_witness :
  snapshot (state_of (Agent.run_research env_research_fails "quantum" None
                        (state_of (Agent.run_research env_ok "climate" None
                                     (fresh_session "0123456789abcdef")))))
  = [{| fact := "1000 qubits"; source := "Not specified";
        timestamp := "14:05:59" |}].
Proof.
  rewrite (proj2 (proj1 (facts_are_those_of_this_run env_research_fails
                           "quantum" None
                           (state_of (Agent.run_research env_ok "climate" None
                                        (fresh_session "0123456789abcdef")))))
             (Agent.research_prompt sample_plan) ltac:(vm_compute; left)).
  reflexivity.
Defined.

(** A call of [run_research] of [agent.py] never raises, shows at most one
    error, and never stops early in silence: when it returns without
    [research_done], exactly one error was shown; when no error was shown,
    the run went through, with a report and all three step flags set. *)
Theorem agent_run_never_raises env q oc s :
  let r := Agent.run_research env q oc s in
  outcome_of r = Ok tt /\
  (length (errors (log_of r)) <= 1)%nat /\
  (research_done (state_of r) = false ->
     exists m, errors (log_of r) = [m]) /\
  (errors (log_of r) = [] ->
     research_done (state_of r) = true /\
     is_Some (report_result (state_of r)) /\
     step_completed (state_of r) !! "planning" = Some true /\
     step_completed (state_of r) !! "research" = Some true /\
     step_completed (state_of r) !! "report" = Some true /\
     (truthy_opt_str oc = true ->
        is_Some (comparison_result (state_of r)) /\
        step_completed (state_of r) !! "comparison" = Some true)).
Proof.
  cbv zeta. run_cases oc; simpl_state;
    (split; [reflexivity|]); (split; [lia|]);
    (split;
     [ intros Hd; first [discriminate Hd|eexists; reflexivity]
     | intros He;
       first
         [ discriminate He
         | repeat split; flag;
           try (eexists; reflexivity);
           try (intros Ht; first [discriminate Ht|eexists; reflexivity]);
           try congruence ] ]).
Qed.

Lemma agent_run_never_raises_witness :
  exists m,
    errors (log_of (Agent.run_research env_planning_fails "quantum" None
                      (fresh_session "0123456789abcdef"))) = [m].
Proof.
  exact (proj1 (proj2 (proj2 (agent_run_never_raises env_planning_fails
                                "quantum" None
                                (fresh_session "0123456789abcdef"))))
           eq_refl).
Defined.

(** ** The correlation identifier *)

Lemma apply_calls_original_content calls s :
  original_content (apply_calls calls s) = original_content s.
Proof. apply apply_calls_frame. Qed.

Lemma apply_calls_current_step calls s :
  current_step (apply_calls calls s) = current_step s.
Proof. apply apply_calls_frame. Qed.

(** [simpl_state], with the two remaining keys. *)
Ltac simpl_session :=
  repeat first
    [ rewrite apply_calls_step_completed
    | rewrite apply_calls_report_result
    | rewrite apply_calls_comparison_result
    | rewrite apply_calls_research_done
    | rewrite apply_calls_conversation_id
    | rewrite apply_calls_original_content
    | rewrite apply_calls_current_step
    | progress simpl ].

(** Membership in the short list of states of a run, case by case. *)
Ltac each_state H :=
  repeat (apply elem_of_cons in H as [->|H]; [simpl_session|]);
  [..|apply elem_of_nil in H; contradiction].

Lemma run_trace_group env q oc s :
  (let r := Agent.run_research env q oc s in
   traces (log_of r) = [("Enhanced Research", conversation_id s)] /\
   (forall st, st ∈ states_at_any (log_of r) ->
      conversation_id st = conversation_id s) /\
   conversation_id (state_of r) = conversation_id s) /\
  (forall now,
   let r := ResearchAgent.run_research env now q oc s in
   traces (log_of r) = [("Enhanced Research", conversation_id s)] /\
   (forall st, st ∈ states_at_any (log_of r) ->
      conversation_id st = conversation_id s) /\
   conversation_id (state_of r) = conversation_id s).
Proof.
  split; [|intros now]; cbv zeta; run_cases oc; simpl_session;
    (split; [reflexivity|]);
    (split; [intros st Hin; each_state Hin; reflexivity|reflexivity]).
Qed.

(** Every run of either script opens exactly one trace, named
    [Enhanced Research], whose group identifier is the [conversation_id] of
    the session; no agent ever sees another identifier and the run leaves it
    unchanged; so a later run of the session, started in the state this
    run leaves, is traced under the same group. *)
Theorem one_trace_per_run env q oc s :
  ((let r := Agent.run_research env q oc s in
   traces (log_of r) = [("Enhanced Research", conversation_id s)] /\
   (forall st, st ∈ states_at_any (log_of r) ->
      conversation_id st = conversation_id s) /\
   conversation_id (state_of r) = conversation_id s) /\
  (forall now,
   let r := ResearchAgent.run_research env now q oc s in
   traces (log_of r) = [("Enhanced Research", conversation_id s)] /\
   (forall st, st ∈ states_at_any (log_of r) ->
      conversation_id st = conversation_id s) /\
   conversation_id (state_of r) = conversation_id s)) /\
  (forall env2 q2 oc2,
     traces (log_of (Agent.run_research env2 q2 oc2
                       (state_of (Agent.run_research env q oc s))))
     = traces (log_of (Agent.run_research env q oc s))).
Proof.
  split; [apply run_trace_group|].
  intros env2 q2 oc2.
  destruct (proj1 (run_trace_group env q oc s)) as (H1 & _ & H1').
  destruct (proj1 (run_trace_group env2 q2 oc2
                     (state_of (Agent.run_research env q oc s))))
    as (H2 & _ & _).
  cbv zeta in *. rewrite H2, H1, H1'. reflexivity.
Qed.

(** ** What the runs never write *)

Lemma run_research_frame_aux env q oc s :
  (let r := Agent.run_research env q oc s in
   current_step (state_of r) = current_step s /\
   original_content (state_of r) = original_content s /\
   step_completed (state_of r) !! "upload" = step_completed s !! "upload") /\
  (forall now,
   let r := ResearchAgent.run_research env now q oc s in
   current_step (state_of r) = current_step s /\
   original_content (state_of r) = original_content s /\
   step_completed (state_of r) = step_completed s /\
   (forall st, st ∈ states_at_any (log_of r) ->
      step_completed st = step_completed s) /\
   errors (log_of r) = []).
Proof.
  split; [|intros now]; cbv zeta; run_cases oc; simpl_session;
    repeat split; flag;
    intros st Hin; each_state Hin; reflexivity.
Qed.

(** [run_research] never writes [current_step], [original_content] or the
    [upload] flag, in either script; in [research_agent.py] it writes no step
    flag at all and shows no error of its own. *)
Theorem run_research_frame env q oc s :
  (let r := Agent.run_research env q oc s in
   current_step (state_of r) = current_step s /\
   original_content (state_of r) = original_content s /\
   step_completed (state_of r) !! "upload" = step_completed s !! "upload") /\
  (forall now,
   let r := ResearchAgent.run_research env now q oc s in
   current_step (state_of r) = current_step s /\
   original_content (state_of r) = original_content s /\
   step_completed (state_of r) = step_completed s /\
   (forall st, st ∈ states_at_any (log_of r) ->
      step_completed st = step_completed s) /\
   errors (log_of r) = []).
Proof. split; [|intros now]; apply run_research_frame_aux. Qed.

(** ** The step flags of [agent.py] *)

(** In a run that starts with a step flag false, the flag is true at the end
    exactly when the agent of that step was invoked and returned in this run.
    (A flag already true at the start stays true whatever happens: the flags
    are never reset.) *)
Theorem step_flags_record_progress env q oc s :
  let r := Agent.run_research env q oc s in
  (step_completed s !! "planning" = Some false ->
     (step_completed (state_of r) !! "planning" = Some true <->
      exists p plan, p ∈ invocations planning_agent (log_of r) /\
                     run_planning env p = Ok plan)) /\
  (step_completed s !! "research" = Some false ->
     (step_completed (state_of r) !! "research" = Some true <->
      exists p rr, p ∈ invocations research_agent (log_of r) /\
                   snd (run_research_agent env p) = Ok rr)) /\
  (step_completed s !! "report" = Some false ->
     (step_completed (state_of r) !! "report" = Some true <->
      exists p out, p ∈ invocations editor_agent (log_of r) /\
                    run_editor env p = Ok out)) /\
  (step_completed s !! "comparison" = Some false ->
     (step_completed (state_of r) !! "comparison" = Some true <->
      exists p c, p ∈ invocations comparison_agent (log_of r) /\
                  run_comparison env p = Ok c)).
Proof.
  cbv zeta. run_cases oc; simpl_session;
    repeat match goal with |- _ /\ _ => split end;
    intros Hf; flag;
    (split;
     [ intros Ht;
       first [ congruence
             | eexists _, _; split; [left|];
               first [eassumption|rewrite Eres; reflexivity] ]
     | intros (p & x & Hin & Hok);
       first [ reflexivity
             | invoked_in Hin; try rewrite Eres in Hok; simpl in Hok;
               congruence ] ]).
Qed.

Lemma step_flags_record_progress_witness :
  step_completed
    (state_of (Agent.run_research env_editor_fails "quantum" None
                 (fresh_session "0123456789abcdef"))) !! "research"
  = Some true.
Proof.
  apply (proj1 (proj2 (step_flags_record_progress env_editor_fails "quantum"
                         None (fresh_session "0123456789abcdef")))
           eq_refl).
  exists (Agent.research_prompt sample_plan),
    (Some {| final_output := "findings" |}).
  split; [vm_compute; left|reflexivity].
Defined.

(** ** The block [if start_button:] *)

(** A run does not read the log: started after some events [pre], it does
    what it does from an empty log, and appends. *)
Lemma agent_body_log_frame env q oc s pre :
  Agent.run_research_body env q oc {| session := s; events := pre |}
  = (fst (Agent.run_research_body env q oc {| session := s; events := [] |}),
     {| session :=
          session (snd (Agent.run_research_body env q oc
                          {| session := s; events := [] |}));
        events :=
          pre ++ events (snd (Agent.run_research_body env q oc
                                {| session := s; events := [] |})) |}).
Proof.
  unfold Agent.run_research_body,
    bind, try_except, update, emit, ret, return_, st_error,
    Runner_run, Runner_run_research, lift.
  destruct (truthy_opt_str oc); simpl; repeat (env_case; simpl);
    rewrite <- ?app_assoc; reflexivity.
Qed.

Lemma research_agent_body_log_frame env now q oc s pre :
  ResearchAgent.run_research_body env now q oc
    {| session := s; events := pre |}
  = (fst (ResearchAgent.run_research_body env now q oc
            {| session := s; events := [] |}),
     {| session :=
          session (snd (ResearchAgent.run_research_body env now q oc
                          {| session := s; events := [] |}));
        events :=
          pre ++ events (snd (ResearchAgent.run_research_body env now q oc
                                {| session := s; events := [] |})) |}).
Proof.
  unfold ResearchAgent.run_research_body, ResearchAgent.display_report,
    bind, try_except, update, emit, ret, return_, st_error,
    Runner_run, Runner_run_research, lift.
  destruct (truthy_opt_str oc); simpl; repeat (env_case; simpl);
    rewrite <- ?app_assoc; reflexivity.
Qed.

Lemma agent_body_never_raises env q oc w e :
  fst (Agent.run_research_body env q oc w) <> Raised e.
Proof.
  unfold Agent.run_research_body,
    bind, try_except, update, emit, ret, return_, st_error,
    Runner_run, Runner_run_research, lift.
  destruct (truthy_opt_str oc); simpl; repeat (env_case; simpl);
    discriminate.
Qed.

Lemma agent_start_research_eq env q uploaded_file s :
  let oc :=
    match uploaded_file with
    | Some f => match loaded_text f with Ok t => Some t | Raise _ => None end
    | None => None
    end in
  let pre :=
    match uploaded_file with
    | Some f =>
        match loaded_text f with
        | Ok _ => []
        | Raise e =>
            [StError ((if String.eqb (type f) "application/pdf"
                       then "Error extracting PDF: "
                       else "Error reading text file: ") +:+ e)]
        end
    | None => []
    end in
  let r := Agent.run_research env q oc (set_original_content oc s) in
  exec (Agent.start_research env q uploaded_file) s
  = (Ok tt, state_of r, pre ++ log_of r).
Proof.
  cbv zeta.
  assert (Hrun : forall oc pre,
    exec (fun w =>
            try_except (called (Agent.run_research_body env q oc))
              (fun e =>
                 st_error ("An error occurred during research: " +:+ e) >>
                 update (set_research_done true))
              {| session := set_original_content oc s; events := pre |})
         s
    = (Ok tt,
       state_of (Agent.run_research env q oc (set_original_content oc s)),
       pre ++ log_of (Agent.run_research env q oc
                        (set_original_content oc s)))).
  { intros oc pre. unfold Agent.run_research.
    unfold exec, try_except, called, state_of, log_of.
    rewrite agent_body_log_frame.
    pose proof (agent_body_never_raises env q oc
                  {| session := set_original_content oc s; events := [] |})
      as Hnr.
    destruct (Agent.run_research_body env q oc
                {| session := set_original_content oc s; events := [] |})
      as [[a|e|] w']; simpl in *.
    - reflexivity.
    - exfalso. apply (Hnr e). reflexivity.
    - reflexivity. }
  unfold Agent.start_research, loaded_text,
    Agent.extract_pdf_text, Agent.extract_text_file.
  destruct uploaded_file as [f|].
  - destruct (String.eqb (type f) "application/pdf").
    + destruct (as_pdf f) as [pages|e].
      * destruct (extract_pages "" pages) as [t|e] eqn:Ep;
          rewrite <- Hrun; unfold exec, bind, try_except, lift, ret,
            update, st_error, emit; simpl; rewrite Ep; reflexivity.
      * rewrite <- Hrun; reflexivity.
    + destruct (as_text f) as [t|e]; rewrite <- Hrun; reflexivity.
  - rewrite <- Hrun. reflexivity.
Qed.

(** The block [if start_button:] of [agent.py] never raises and comes to
    this: read the upload (if any); on a failure show one error and go on
    without a document; store the text, or [None], in [original_content]; run
    [run_research] with it.  The log is the error of the loader, if any,
    followed by the log of the run. *)
Theorem agent_start_research_composes env q uploaded_file s :
  let oc :=
    match uploaded_file with
    | Some f => match loaded_text f with Ok t => Some t | Raise _ => None end
    | None => None
    end in
  let pre :=
    match uploaded_file with
    | Some f =>
        match loaded_text f with
        | Ok _ => []
        | Raise e =>
            [StError ((if String.eqb (type f) "application/pdf"
                       then "Error extracting PDF: "
                       else "Error reading text file: ") +:+ e)]
        end
    | None => []
    end in
  let r := Agent.run_research env q oc (set_original_content oc s) in
  exec (Agent.start_research env q uploaded_file) s
  = (Ok tt, state_of r, pre ++ log_of r).
Proof. cbv zeta. apply agent_start_research_eq. Qed.

Lemma research_agent_start_research_eq env now q uploaded_file s :
  let oc :=
    match uploaded_file with
    | Some f => match loaded_text f with Ok t => Some t | Raise _ => None end
    | None => None
    end in
  let pre :=
    match uploaded_file with
    | Some f =>
        match loaded_text f with
        | Ok _ => []
        | Raise e => [StError ("Error reading file: " +:+ e)]
        end
    | None => []
    end in
  let r := ResearchAgent.run_research env now q oc s in
  exec (ResearchAgent.start_research env now q uploaded_file) s
  = match outcome_of r with
    | Ok _ => (Ok tt, state_of r, pre ++ log_of r)
    | Raise e =>
        (Ok tt, set_research_done true (state_of r),
         pre ++ log_of r ++ [StError ("An error occurred: " +:+ e)])
    end.
Proof.
  cbv zeta.
  assert (Hrun : forall oc pre,
    exec (fun w =>
            try_except
              (called (ResearchAgent.run_research_body env now q oc))
              (fun e =>
                 st_error ("An error occurred: " +:+ e) >>
                 update (set_research_done true))
              {| session := s; events := pre |})
         s
    = match outcome_of (ResearchAgent.run_research env now q oc s) with
      | Ok _ =>
          (Ok tt, state_of (ResearchAgent.run_research env now q oc s),
           pre ++ log_of (ResearchAgent.run_research env now q oc s))
      | Raise e =>
          (Ok tt,
           set_research_done true
             (state_of (ResearchAgent.run_research env now q oc s)),
           pre ++ log_of (ResearchAgent.run_research env now q oc s) ++
             [StError ("An error occurred: " +:+ e)])
      end).
  { intros oc pre. unfold ResearchAgent.run_research.
    unfold exec, try_except, called, state_of, log_of, outcome_of.
    rewrite research_agent_body_log_frame.
    destruct (ResearchAgent.run_research_body env now q oc
                {| session := s; events := [] |})
      as [[a|e|] w']; simpl.
    - reflexivity.
    - unfold bind, st_error, emit, update. simpl.
      rewrite <- app_assoc. reflexivity.
    - reflexivity. }
  unfold ResearchAgent.start_research, loaded_text,
    ResearchAgent.extract_pdf_text, ResearchAgent.extract_text_file.
  destruct uploaded_file as [f|].
  - destruct (String.eqb (type f) "application/pdf").
    + destruct (as_pdf f) as [pages|e].
      * destruct (extract_pages "" pages) as [t|e] eqn:Ep;
          rewrite <- Hrun; unfold exec, bind, try_except, lift, ret,
            update, st_error, emit; simpl; rewrite Ep; reflexivity.
      * rewrite <- Hrun; reflexivity.
    + destruct (as_text f) as [t|e]; rewrite <- Hrun; reflexivity.
  - rewrite <- Hrun. reflexivity.
Qed.

(** The block [if start_button:] of [research_agent.py]: read the upload; on
    a failure show one error and go on without a document; run
    [run_research]; if that raises, show the exception and set
    [research_done].  [original_content] is not stored. *)
Theorem research_agent_start_research_composes env now q uploaded_file s :
  let oc :=
    match uploaded_file with
    | Some f => match loaded_text f with Ok t => Some t | Raise _ => None end
    | None => None
    end in
  let pre :=
    match uploaded_file with
    | Some f =>
        match loaded_text f with
        | Ok _ => []
        | Raise e => [StError ("Error reading file: " +:+ e)]
        end
    | None => []
    end in
  let r := ResearchAgent.run_research env now q oc s in
  exec (ResearchAgent.start_research env now q uploaded_file) s
  = match outcome_of r with
    | Ok _ => (Ok tt, state_of r, pre ++ log_of r)
    | Raise e =>
        (Ok tt, set_research_done true (state_of r),
         pre ++ log_of r ++ [StError ("An error occurred: " +:+ e)])
    end.
Proof. cbv zeta. apply research_agent_start_research_eq. Qed.

Lemma research_agent_run_ok_is_done env now q oc s :
  outcome_of (ResearchAgent.run_research env now q oc s) = Ok tt ->
  research_done (state_of (ResearchAgent.run_research env now q oc s)) = true.
Proof. run_cases oc; intros H; first [discriminate H|reflexivity]. Qed.

(** So in [research_agent.py] pressing the start button always ends with
    [research_done] set, whether the run went through or an agent raised,
    never lets an exception out, and never changes a step flag. *)
Theorem research_agent_start_always_done env now q uploaded_file s :
  let r := exec (ResearchAgent.start_research env now q uploaded_file) s in
  outcome_of r = Ok tt /\
  research_done (state_of r) = true /\
  step_completed (state_of r) = step_completed s /\
  original_content (state_of r) = original_content s.
Proof.
  cbv zeta. rewrite research_agent_start_research_eq. cbv zeta.
  set (oc := match uploaded_file with
             | Some f => match loaded_text f with
                         | Ok t => Some t
                         | Raise _ => None
                         end
             | None => None
             end).
  pose proof (research_agent_run_ok_is_done env now q oc s) as Hok.
  destruct (proj2 (run_research_frame_aux env q oc s) now)
    as (_ & Hoc & Hsc & _).
  cbv zeta in Hoc, Hsc.
  destruct (outcome_of (ResearchAgent.run_research env now q oc s))
    as [[]|e]; unfold outcome_of, state_of; simpl.
  - repeat split; try assumption. apply Hok. reflexivity.
  - repeat split; assumption.
Qed.

(** ** Uploads *)

(** A run without a document starts with the planning agent, on the bare
    prompt, and never gets to the gap analysis or the comparison. *)
Lemma no_document_run env q s :
  (invocations gap_analysis_agent
     (log_of (Agent.run_research env q None s)) = [] /\
   invocations comparison_agent
     (log_of (Agent.run_research env q None s)) = [] /\
   invocations planning_agent (log_of (Agent.run_research env q None s))
   = ["Create a comprehensive research plan for: " +:+ q]) /\
  (forall now,
   invocations gap_analysis_agent
     (log_of (ResearchAgent.run_research env now q None s)) = [] /\
   invocations comparison_agent
     (log_of (ResearchAgent.run_research env now q None s)) = [] /\
   invocations planning_agent
     (log_of (ResearchAgent.run_research env now q None s))
   = ["Create a comprehensive research plan for: " +:+ q]).
Proof.
  split; [|intros now]; unfold_run; simpl; repeat (env_case; simpl);
    repeat split; reflexivity.
Qed.

Lemma outcome_of_triple o st l : outcome_of (o, st, l) = o.
Proof. reflexivity. Qed.

Lemma state_of_triple o st l : state_of (o, st, l) = st.
Proof. reflexivity. Qed.

Lemma log_of_triple o st l : log_of (o, st, l) = l.
Proof. reflexivity. Qed.

Lemma invocations_app_error a l m :
  invocations a (l ++ [StError m]) = invocations a l.
Proof.
  induction l as [|ev l IH]; [reflexivity|].
  destruct ev as [? ?|b ? ?|?|?]; cbn [app invocations]; try assumption.
  destruct (agent_eqb a b); [f_equal|]; assumption.
Qed.

(** When the upload cannot be read (the PDF does not open, a page fails, or
    the text does not decode), pressing the start button still runs the
    research, without a document: the loader's error is the first one shown,
    the planning agent gets the bare prompt, and neither the gap analysis nor
    the comparison agent is invoked.  [agent.py] stores [None] in
    [original_content]; [research_agent.py] leaves that key alone. *)
Theorem load_failure_runs_without_document env now q f s e :
  loaded_text f = Raise e ->
  (let r := exec (Agent.start_research env q (Some f)) s in
   outcome_of r = Ok tt /\
   original_content (state_of r) = None /\
   invocations gap_analysis_agent (log_of r) = [] /\
   invocations comparison_agent (log_of r) = [] /\
   invocations planning_agent (log_of r)
   = ["Create a comprehensive research plan for: " +:+ q] /\
   head (errors (log_of r))
   = Some ((if String.eqb (type f) "application/pdf"
            then "Error extracting PDF: "
            else "Error reading text file: ") +:+ e)) /\
  (let r := exec (ResearchAgent.start_research env now q (Some f)) s in
   outcome_of r = Ok tt /\
   original_content (state_of r) = original_content s /\
   invocations gap_analysis_agent (log_of r) = [] /\
   invocations comparison_agent (log_of r) = [] /\
   invocations planning_agent (log_of r)
   = ["Create a comprehensive research plan for: " +:+ q] /\
   head (errors (log_of r)) = Some ("Error reading file: " +:+ e)).
Proof.
  intros Hload. split; cbv zeta.
  - rewrite agent_start_research_eq. cbv zeta. rewrite Hload.
    destruct (proj1 (no_document_run env q (set_original_content None s)))
      as (Hg & Hc & Hp).
    destruct (proj1 (run_research_frame_aux env q None
                       (set_original_content None s))) as (_ & Hoc & _).
    cbv zeta in Hoc.
    rewrite outcome_of_triple, state_of_triple, !log_of_triple.
    cbn [app invocations errors head].
    rewrite Hoc. repeat split; assumption.
  - rewrite research_agent_start_research_eq. cbv zeta. rewrite Hload.
    destruct (proj2 (no_document_run env q s) now) as (Hg & Hc & Hp).
    destruct (proj2 (run_research_frame_aux env q None s) now)
      as (_ & Hoc & _).
    cbv zeta in Hoc.
    destruct (outcome_of (ResearchAgent.run_research env now q None s));
      rewrite outcome_of_triple, state_of_triple, !log_of_triple;
      cbn [app invocations errors head];
      rewrite ?invocations_app_error;
      repeat split; assumption.
Qed.

Lemma load_failure_runs_without_document_witness :
  invocations gap_analysis_agent
    (log_of (exec (Agent.start_research env_ok "quantum" (Some sample_pdf))
               (fresh_session "0123456789abcdef"))) = [] /\
  head (errors
          (log_of (exec (ResearchAgent.start_research env_ok sample_time
                           "quantum" (Some sample_pdf))
                     (fresh_session "0123456789abcdef"))))
  = Some "Error reading file: bad stream".
Proof.
  destruct (load_failure_runs_without_document env_ok sample_time "quantum"
              sample_pdf (fresh_session "0123456789abcdef") "bad stream"
              eq_refl)
    as ((_ & _ & Hg & _) & (_ & _ & _ & _ & _ & He)).
  split; [exact Hg|exact He].
Defined.

Lemma document_run env q oc s :
  truthy_opt_str oc = true ->
  invocations gap_analysis_agent (log_of (Agent.run_research env q oc s))
  = [Agent.gap_prompt (default "" oc) q].
Proof. intros Hdoc. run_cases oc; first [discriminate Hdoc|reflexivity]. Qed.

Lemma falsy_document_run env q oc s :
  truthy_opt_str oc = false ->
  invocations gap_analysis_agent
    (log_of (Agent.run_research env q oc s)) = [] /\
  invocations comparison_agent
    (log_of (Agent.run_research env q oc s)) = [] /\
  invocations planning_agent (log_of (Agent.run_research env q oc s))
  = ["Create a comprehensive research plan for: " +:+ q].
Proof.
  intros Hdoc. run_cases oc; first [discriminate Hdoc|repeat split].
Qed.

(** When the upload is read, [agent.py] stores its text in
    [original_content] and, if the text is not empty, hands it to the gap
    analysis agent in the first prompt of the run.  A readable upload with no
    text at all (a scanned PDF, an empty file) is stored but then treated as
    no document: no gap analysis, no comparison, the bare planning prompt. *)
Theorem upload_reaches_gap_analysis env q f s t :
  loaded_text f = Ok t ->
  let r := exec (Agent.start_research env q (Some f)) s in
  outcome_of r = Ok tt /\
  original_content (state_of r) = Some t /\
  errors (log_of r)
  = errors (log_of (Agent.run_research env q (Some t)
                      (set_original_content (Some t) s))) /\
  (t <> "" ->
     invocations gap_analysis_agent (log_of r) = [Agent.gap_prompt t q] /\
     embeds t (Agent.gap_prompt t q) /\ embeds q (Agent.gap_prompt t q)) /\
  (t = "" ->
     invocations gap_analysis_agent (log_of r) = [] /\
     invocations comparison_agent (log_of r) = [] /\
     invocations planning_agent (log_of r)
     = ["Create a comprehensive research plan for: " +:+ q]).
Proof.
  intros Hload. cbv zeta.
  rewrite agent_start_research_eq. cbv zeta. rewrite Hload.
  rewrite outcome_of_triple, state_of_triple, !log_of_triple.
  cbn [app].
  destruct (proj1 (run_research_frame_aux env q (Some t)
                     (set_original_content (Some t) s))) as (_ & Hoc & _).
  cbv zeta in Hoc.
  split; [reflexivity|]. split; [rewrite Hoc; reflexivity|].
  split; [reflexivity|]. split.
  - intros Hne. split; [|split].
    + apply (document_run env q (Some t)).
      destruct t; [contradiction|reflexivity].
    + apply (embeds_intro ("Original Research Content:" +:+ nl)).
    + exists ("Original Research Content:" +:+ nl +:+ t +:+ nl +:+
              "Research Query: "),
        (nl +:+ "Analyze this research for gaps and improvements needed.").
      unfold Agent.gap_prompt. now rewrite !string_app_assoc.
  - intros ->. apply (falsy_document_run env q (Some "")). reflexivity.
Qed.

Lemma upload_reaches_gap_analysis_witness :
  invocations gap_analysis_agent
    (log_of (exec (Agent.start_research env_ok "quantum" (Some sample_txt))
               (fresh_session "0123456789abcdef")))
  = [Agent.gap_prompt "An older survey." "quantum"].
Proof.
  destruct (upload_reaches_gap_analysis env_ok "quantum" sample_txt
              (fresh_session "0123456789abcdef") "An older survey." eq_refl)
    as (_ & _ & _ & H & _).
  exact (proj1 (H ltac:(discriminate))).
Defined.

(** ** The Fact Sink over several calls *)

(** The Fact Sink is append-only: a sequence of calls of
    [save_important_fact] leaves every earlier entry at its index, unchanged,
    and adds one entry per call, in the order of the calls, after them. *)
Theorem fact_sink_is_append_only calls s :
  snapshot (apply_calls calls s) = snapshot s ++ map entry_of_call calls /\
  length (snapshot (apply_calls calls s))
  = (length (snapshot s) + length calls)%nat /\
  (forall (i : nat) x, snapshot s !! i = Some x ->
     snapshot (apply_calls calls s) !! i = Some x) /\
  (forall (i : nat) c, calls !! i = Some c ->
     snapshot (apply_calls calls s) !! (length (snapshot s) + i)%nat
     = Some (entry_of_call c)).
Proof.
  assert (H : snapshot (apply_calls calls s)
              = snapshot s ++ map entry_of_call calls)
    by apply apply_calls_snapshot.
  split; [exact H|]. rewrite H. split; [|split].
  - now rewrite length_app, length_map.
  - intros i x Hi. now apply lookup_app_l_Some.
  - intros i c Hi. rewrite lookup_app_r by lia.
    replace (length (snapshot s) + i - length (snapshot s))%nat with i by lia.
    now rewrite list_lookup_fmap, Hi.
Qed.

Lemma fact_sink_is_append_only_witness :
  snapshot (apply_calls sample_calls
              (fst (save_important_fact "first" None sample_time
                      (fresh_session "0123456789abcdef")))) !! 0%nat
  = Some {| fact := "first"; source := "Not specified";
            timestamp := "14:05:59" |}.
Proof.
  apply (proj1 (proj2 (proj2 (fact_sink_is_append_only sample_calls
                                (fst (save_important_fact "first" None
                                        sample_time
                                        (fresh_session
                                           "0123456789abcdef"))))))).
  reflexivity.
Defined.

(** ** The first failing page *)

Lemma extract_pages_first_failure texts e rest : forall acc,
  extract_pages acc (map Ok texts ++ Raise e :: rest) = Raise e.
Proof.
  induction texts as [|t texts IH]; intros acc; cbn [map app extract_pages].
  - reflexivity.
  - apply IH.
Qed.

(** Extraction stops at the first page that fails: the error reported is
    that page's, and what the later pages hold (text, or further failures)
    makes no difference.  [agent.py] shows the error and returns [None]
    without touching the session; [research_agent.py] raises it. *)
Theorem first_failing_page_decides texts e rest w :
  Agent.extract_pdf_text (Ok (map Ok texts ++ Raise e :: rest)) w
  = (Val None,
     {| session := session w;
        events := events w ++ [StError ("Error extracting PDF: " +:+ e)] |})
  /\
  ResearchAgent.extract_pdf_text (Ok (map Ok texts ++ Raise e :: rest)) w
  = (Raised e, w).
Proof.
  unfold Agent.extract_pdf_text, ResearchAgent.extract_pdf_text,
    try_except, bind, lift, ret, st_error, emit.
  rewrite extract_pages_first_failure. split; reflexivity.
Qed.

(** ** The initialisation of the session state *)

Lemma init_key_preserves k v d k' x :
  d !! k' = Some x -> init_key k v d !! k' = Some x.
Proof.
  intros H. unfold init_key. destruct (d !! k) eqn:E; [exact H|].
  rewrite lookup_insert_ne; [exact H|]. intros ->. congruence.
Qed.

Lemma init_key_other k v d k' :
  k <> k' -> init_key k v d !! k' = d !! k'.
Proof.
  intros H. unfold init_key. destruct (d !! k); [reflexivity|].
  now rewrite lookup_insert_ne.
Qed.

Lemma init_key_present k v d : is_Some (init_key k v d !! k).
Proof.
  unfold init_key. destruct (d !! k) eqn:E.
  - rewrite E. eexists; reflexivity.
  - rewrite lookup_insert_eq. eexists; reflexivity.
Qed.

Lemma init_key_keeps_present k v d k' :
  is_Some (d !! k') -> is_Some (init_key k v d !! k').
Proof. intros [x Hx]. exists x. now apply init_key_preserves. Qed.

Lemma init_key_noop k v d : is_Some (d !! k) -> init_key k v d = d.
Proof. intros [x Hx]. unfold init_key. now rewrite Hx. Qed.

Lemma init_session_state_present hex d k :
  k ∈ session_keys -> is_Some (init_session_state hex d !! k).
Proof.
  intros Hk. unfold session_keys in Hk. unfold init_session_state.
  repeat (apply elem_of_cons in Hk as [->|Hk];
          [repeat first [apply init_key_present
                        |apply init_key_keeps_present]|]).
  apply elem_of_nil in Hk. contradiction.
Qed.

(** The initialisation block fills in what is missing and nothing else: a
    key that holds a value keeps it, a key that is not one of the eight is
    not touched, and afterwards the eight keys are all there. *)
Theorem init_session_state_fills_gaps hex d :
  (forall k x, d !! k = Some x -> init_session_state hex d !! k = Some x) /\
  (forall k, k ∉ session_keys ->
     init_session_state hex d !! k = d !! k) /\
  (forall k, k ∈ session_keys -> is_Some (init_session_state hex d !! k)).
Proof.
  split; [|split].
  - intros k x H. unfold init_session_state.
    repeat apply init_key_preserves. exact H.
  - intros k Hk. unfold init_session_state, session_keys in *.
    repeat (rewrite init_key_other;
            [|intros Heq; subst k; apply Hk; set_solver]).
    reflexivity.
  - intros k. apply init_session_state_present.
Qed.

Lemma init_session_state_fills_gaps_witness :
  init_session_state "0123456789abcdef0123456789abcdef"
    (<["conversation_id" := VStr "feedfacecafebeef"]>
       (<["quick_example" := VStr "AI in healthcare"]> ∅))
    !! "conversation_id" = Some (VStr "feedfacecafebeef").
Proof.
  apply (proj1 (init_session_state_fills_gaps
                  "0123456789abcdef0123456789abcdef" _)).
  reflexivity.
Defined.

Lemma substring_length n : forall s,
  (n <= String.length s)%nat ->
  String.length (String.substring 0 n s) = n.
Proof.
  induction n as [|n IH]; intros s Hs.
  - destruct s; reflexivity.
  - destruct s as [|a s]; cbn [String.length] in Hs; [lia|].
    cbn [String.substring String.length]. f_equal. apply IH. lia.
Qed.

(** The identifier is drawn once per session: on a dict that went through
    the initialisation block, the block does nothing, whatever [uuid4] would
    give this time; on the empty dict of a new session it gives the record
    [fresh_session] with the first 16 characters of the [uuid4] hex string as
    identifier. *)
Theorem init_session_state_once hex hex' d :
  init_session_state hex' (init_session_state hex d)
  = init_session_state hex d /\
  session_of (init_session_state hex ∅)
  = Some (fresh_session (String.substring 0 16 hex)) /\
  ((16 <= String.length hex)%nat ->
   String.length (String.substring 0 16 hex) = 16%nat).
Proof.
  split; [|split].
  - unfold init_session_state at 1.
    rewrite (init_key_noop "conversation_id")
      by (apply init_session_state_present; unfold session_keys;
          set_solver).
    rewrite (init_key_noop "collected_facts")
      by (apply init_session_state_present; unfold session_keys;
          set_solver).
    rewrite (init_key_noop "research_done")
      by (apply init_session_state_present; unfold session_keys;
          set_solver).
    rewrite (init_key_noop "report_result")
      by (apply init_session_state_present; unfold session_keys;
          set_solver).
    rewrite (init_key_noop "original_content")
      by (apply init_session_state_present; unfold session_keys;
          set_solver).
    rewrite (init_key_noop "comparison_result")
      by (apply init_session_state_present; unfold session_keys;
          set_solver).
    rewrite (init_key_noop "current_step")
      by (apply init_session_state_present; unfold session_keys;
          set_solver).
    rewrite (init_key_noop "step_completed")
      by (apply init_session_state_present; unfold session_keys;
          set_solver).
    reflexivity.
  - reflexivity.
  - apply substring_length.
Qed.

Lemma init_session_state_once_witness :
  String.length (String.substring 0 16 "0123456789abcdef0123456789abcdef")
  = 16%nat.
Proof.
  apply (proj2 (proj2 (init_session_state_once
                         "0123456789abcdef0123456789abcdef" "" ∅))).
  vm_compute. lia.
Defined.

(** ** What the prompts carry *)

Lemma embeds_prefix x m a : embeds x m -> embeds x (a +:+ m).
Proof.
  intros (pre & post & ->). exists (a +:+ pre), post.
  now rewrite string_app_assoc.
Qed.

Lemma embeds_suffix x m b : embeds x m -> embeds x (m +:+ b).
Proof.
  intros (pre & post & ->). exists pre, (post +:+ b).
  now rewrite !string_app_assoc.
Qed.

Lemma embeds_refl x : embeds x x.
Proof. exists "", "". cbn. now rewrite string_app_nil_r. Qed.

(** Every element of a list occurs in the list joined with a separator. *)
Lemma embeds_concat sep x l : x ∈ l -> embeds x (String.concat sep l).
Proof.
  induction l as [|y l IH]; intros Hin.
  - apply elem_of_nil in Hin. contradiction.
  - destruct l as [|z l]; cbn [String.concat].
    + apply list_elem_of_singleton in Hin as ->. apply embeds_refl.
    + apply elem_of_cons in Hin as [->|Hin].
      * apply embeds_suffix, embeds_refl.
      * apply embeds_prefix, embeds_prefix, IH, Hin.
Qed.

(** The prompt of the planning agent in [agent.py]: without a document, the
    bare request for the topic; with a document, a prompt that carries the
    topic and what the gap analysis returned, which is its rendering as text
    when it is a [ResearchGaps] and the words [General research needed] when
    it is anything else. *)
Theorem planning_prompt_carries_gaps env q oc s p :
  p ∈ invocations planning_agent (log_of (Agent.run_research env q oc s)) ->
  (truthy_opt_str oc = false /\
   p = "Create a comprehensive research plan for: " +:+ q) \/
  (truthy_opt_str oc = true /\
   exists pg out,
     pg ∈ invocations gap_analysis_agent
            (log_of (Agent.run_research env q oc s)) /\
     run_gap_analysis env pg = Ok out /\
     embeds q p /\
     match out with
     | Structured g => embeds (str_gaps env g) p
     | Unstructured _ => embeds "General research needed" p
     end).
Proof.
  run_cases oc; intros Hin; invoked_in Hin;
    first
      [ left; split; reflexivity
      | right; (split; [reflexivity|]); eexists _, _; (split; [left|]);
        (split; [eassumption|]);
        (split; [apply (embeds_intro "Research Query: ")|]);
        match goal with
        | o : FinalOutput ResearchGaps |- _ =>
            destruct o as [g|t]; cbn [Agent.gaps_data Agent.str_output];
            eexists ("Research Query: " +:+ q +:+ nl +:+ "Gaps to fill: "),
              _;
            rewrite !string_app_assoc; reflexivity
        end ].
Qed.

Lemma planning_prompt_carries_gaps_witness :
  exists out,
    run_gap_analysis env_ok
      (Agent.gap_prompt "An older survey." "quantum") = Ok out /\
    embeds "quantum"
      (Agent.plan_prompt env_ok "quantum" (Some (Structured sample_gaps))).
Proof.
  destruct (planning_prompt_carries_gaps env_ok "quantum"
              (Some "An older survey.") (fresh_session "0123456789abcdef")
              (Agent.plan_prompt env_ok "quantum"
                 (Some (Structured sample_gaps)))
              ltac:(vm_compute; left))
    as [[Hf _]|(_ & pg & out & _ & _ & Hq & _)]; [discriminate Hf|].
  exists (Structured sample_gaps). split; [reflexivity|exact Hq].
Defined.

(** The prompt of the research agent in [agent.py] is built from the plan
    that the planning agent returned in this run, and every search query and
    every focus area of that plan occurs in it. *)
Theorem research_prompt_carries_plan env q oc s p :
  p ∈ invocations research_agent (log_of (Agent.run_research env q oc s)) ->
  exists pp plan,
    pp ∈ invocations planning_agent (log_of (Agent.run_research env q oc s))
    /\ run_planning env pp = Ok plan
    /\ p = Agent.research_prompt plan
    /\ (forall x, x ∈ search_queries plan -> embeds x p)
    /\ (forall x, x ∈ focus_areas plan -> embeds x p).
Proof.
  run_cases oc; intros Hin; invoked_in Hin;
    (eexists _, _; split; [left|]; split; [eassumption|];
     split; [reflexivity|]; split; intros x Hx; unfold Agent.research_prompt;
     [ apply embeds_prefix, embeds_prefix, embeds_suffix,
         (embeds_concat ", "), Hx
     | do 6 apply embeds_prefix;
       apply embeds_suffix, (embeds_concat ", "), Hx ]).
Qed.

Lemma research_prompt_carries_plan_witness :
  embeds "error correction" (Agent.research_prompt sample_plan).
Proof.
  destruct (research_prompt_carries_plan env_ok "quantum" None
              (fresh_session "0123456789abcdef")
              (Agent.research_prompt sample_plan) ltac:(vm_compute; left))
    as (pp & plan & _ & Hplan & Hp & Hq & _).
  injection Hplan as <-. apply Hq. right. left.
Defined.

(** The prompt of the comparison agent in [agent.py] carries the reference
    text and the text of the report that the editor agent returned in this
    run (its [report] field when it is a [ResearchReport]), which is also the
    report left in the session. *)
Theorem comparison_prompt_carries_report env q oc s p :
  p ∈ invocations comparison_agent (log_of (Agent.run_research env q oc s))
  ->
  let r := Agent.run_research env q oc s in
  truthy_opt_str oc = true /\
  exists pe out,
    pe ∈ invocations editor_agent (log_of r) /\
    run_editor env pe = Ok out /\
    report_result (state_of r) = Some out /\
    embeds (default "" oc) p /\
    embeds (Agent.report_text out) p /\
    (forall rep, out = Structured rep -> embeds (report rep) p).
Proof.
  cbv zeta. run_cases oc; intros Hin; invoked_in Hin;
    (split; [reflexivity|]); eexists _, _;
    (split; [left|]); (split; [eassumption|]); simpl_state;
    (split; [reflexivity|]); unfold Agent.comparison_prompt;
    (split; [apply (embeds_intro ("Original Research:" +:+ nl))|]);
    (split;
     [ do 6 apply embeds_prefix; apply embeds_suffix, embeds_refl
     | intros rep' ->; do 6 apply embeds_prefix;
       apply embeds_suffix, embeds_refl ]).
Qed.

Lemma comparison_prompt_carries_report_witness :
  embeds ("# Title" +:+ nl +:+ nl +:+ "Body")
    (Agent.comparison_prompt "An older survey." (Structured sample_report)).
Proof.
  destruct (comparison_prompt_carries_report env_ok "quantum"
              (Some "An older survey.") (fresh_session "0123456789abcdef")
              (Agent.comparison_prompt "An older survey."
                 (Structured sample_report))
              ltac:(vm_compute; left))
    as (_ & pe & out & _ & Hout & _ & _ & _ & Hrep).
  injection Hout as <-. apply (Hrep sample_report eq_refl).
Defined.

(** ** Names and timestamps *)

(** The name of the downloaded file identifies the second at which the
    button was drawn: two wall-clock times give the same name exactly when
    they are the same time. *)
Theorem report_names_identify_the_second t1 t2 :
  wall_clock t1 -> wall_clock t2 ->
  ("research_report_" +:+ strftime_stamp t1 +:+ ".md"
   = "research_report_" +:+ strftime_stamp t2 +:+ ".md" <-> t1 = t2).
Proof.
  intros H1 H2. split; [|intros ->; reflexivity].
  intros Heq.
  pose proof (report_name_roundtrip t1 H1) as R1.
  pose proof (report_name_roundtrip t2 H2) as R2.
  rewrite Heq in R1. congruence.
Qed.

Lemma report_names_identify_the_second_witness :
  "research_report_" +:+ strftime_stamp sample_time +:+ ".md"
  <> "research_report_" +:+
       strftime_stamp {| year := 2025; month := 3; day := 9;
                         hour := 14; minute := 6; second := 0 |} +:+ ".md".
Proof.
  intros H.
  apply (report_names_identify_the_second sample_time
           {| year := 2025; month := 3; day := 9;
              hour := 14; minute := 6; second := 0 |}
           ltac:(unfold wall_clock; simpl; lia)
           ltac:(unfold wall_clock; simpl; lia)) in H.
  discriminate H.
Defined.

Lemma digit_inj a b : digit a = digit b -> a mod 10 = b mod 10.
Proof.
  intros H. apply (f_equal digit_value) in H.
  rewrite !digit_value_digit in H. now injection H.
Qed.

(** The timestamp of a collected fact is eight characters [HH:MM:SS] that
    hold the time of day and nothing of the date: two wall-clock times get
    the same timestamp exactly when they agree on hour, minute and second,
    whatever their days. *)
Theorem fact_timestamps_hold_the_time_of_day t1 t2 :
  wall_clock t1 -> wall_clock t2 ->
  String.length (strftime_HMS t1) = 8%nat /\
  (strftime_HMS t1 = strftime_HMS t2 <->
   hour t1 = hour t2 /\ minute t1 = minute t2 /\ second t1 = second t2).
Proof.
  intros (_ & _ & _ & Hh1 & Hm1 & Hs1) (_ & _ & _ & Hh2 & Hm2 & Hs2).
  split; [reflexivity|]. split.
  - unfold strftime_HMS. intros Heq.
    pose proof (f_equal (fun x => parse_digits 2 x 0) Heq) as P.
    cbv beta in P. rewrite !parse_digits_two in P by lia.
    injection P as Ph Pm1 Pm0 Ps1 Ps0.
    apply digit_inj in Pm1, Pm0, Ps1, Ps0.
    repeat split; Z.to_euclidean_division_equations; lia.
  - intros (Hh & Hm & Hs). unfold strftime_HMS. now rewrite Hh, Hm, Hs.
Qed.

Lemma fact_timestamps_hold_the_time_of_day_witness :
  strftime_HMS sample_time
  = strftime_HMS {| year := 2026; month := 11; day := 4;
                    hour := 14; minute := 5; second := 59 |}.
Proof.
  apply (proj2 (fact_timestamps_hold_the_time_of_day sample_time
                  {| year := 2026; month := 11; day := 4;
                     hour := 14; minute := 5; second := 59 |}
                  ltac:(unfold wall_clock; simpl; lia)
                  ltac:(unfold wall_clock; simpl; lia))).
  repeat split.
Defined.

(** ** The download button of [research_agent.py] *)

(** [research_agent.py] draws the download button inside [run_research],
    after the last stage: at most one per run, and one is drawn exactly when
    no agent of the run raised and the editor agent returned a
    [ResearchReport].  So when the comparison agent raises, the report that
    was just written gets no button. *)
Theorem research_agent_download_needs_full_run env now q oc s :
  let r := ResearchAgent.run_research env now q oc s in
  (length (downloads (log_of r)) <= 1)%nat /\
  (downloads (log_of r) <> [] <->
   outcome_of r = Ok tt /\
   exists rep, report_result (state_of r) = Some (Structured rep)) /\
  (forall e, outcome_of r = Raise e -> downloads (log_of r) = []).
Proof.
  cbv zeta. run_cases oc; simpl_state;
    (split; [lia|]);
    (split;
     [ split;
       [ intros Hd; first [congruence|split; [reflexivity|eexists; reflexivity]]
       | intros (Ho & rep' & Hr); first [discriminate|congruence] ]
     | intros e He; first [reflexivity|discriminate He] ]).
Qed.

Lemma research_agent_download_needs_full_run_witness :
  downloads
    (log_of (ResearchAgent.run_research env_comparison_fails sample_time
               "quantum" (Some "An older survey.")
               (fresh_session "0123456789abcdef"))) = [].
Proof.
  exact (proj2 (proj2 (research_agent_download_needs_full_run
                         env_comparison_fails sample_time "quantum"
                         (Some "An older survey.")
                         (fresh_session "0123456789abcdef")))
           "timeout" eq_refl).
Defined.

Lemma one_trace_per_run_witness :
  traces (log_of (Agent.run_research env_research_fails "climate" None
                    (state_of (Agent.run_research env_ok "quantum" None
                                 (fresh_session "0123456789abcdef")))))
  = [("Enhanced Research", "0123456789abcdef")].
Proof.
  rewrite (proj2 (one_trace_per_run env_ok "quantum" None
                    (fresh_session "0123456789abcdef"))
             env_research_fails "climate" None).
  exact (proj1 (proj1 (proj1 (one_trace_per_run env_ok "quantum" None
                                (fresh_session "0123456789abcdef"))))).
Defined.

Lemma run_research_frame_witness :
  step_completed
    (state_of (ResearchAgent.run_research env_ok sample_time "quantum"
                 (Some "An older survey.")
                 (fresh_session "0123456789abcdef")))
  = initial_step_completed.
Proof.
  exact (proj1 (proj2 (proj2 (proj2 (run_research_frame env_ok "quantum"
                                       (Some "An older survey.")
                                       (fresh_session "0123456789abcdef"))
                                sample_time)))).
Defined.

(** ** The tolerated comparison failure, on an example *)

Lemma agent_comparison_failure_tolerated_witness :
  step_completed
    (state_of (Agent.run_research env_comparison_fails "quantum"
                 (Some "An older survey.")
                 (fresh_session "0123456789abcdef"))) !! "report"
  = Some true.
Proof.
  pose proof (agent_comparison_failure_tolerated env_comparison_fails
                "quantum" (Some "An older survey.")
                (fresh_session "0123456789abcdef")
                (Agent.comparison_prompt "An older survey."
                   (Structured sample_report))
                "timeout" eq_refl ltac:(vm_compute; left)) as H.
  cbv zeta in H. exact (proj1 (proj2 (proj2 H))).
Defined.
